(** * gotk: [create alert] and [get receivers]

    A shallow embedding of the two commands of the gotk command line client
    found in [cmd/gotk/create_alert.go] and [cmd/gotk/get_receiver.go],
    together with the properties their specification states about them.

    The commands talk to a Kubernetes API server through a client, print
    through a logger and a table printer, and read package-level flag
    variables.  The embedding makes all of that explicit:

    - the flag variables are the fields of a record [Flags];
    - the API server is an abstract state [K]; a [KubeClient] is a record of
      state transformers over it, one per client method the commands call;
    - every call that leaves the process (client construction, Get, Create,
      Update, List, a logger line, an export, a printed table) is appended
      to a [trace], so that "no network call happens" and "Update receives
      this object" are statements about the trace. *)

From Stdlib Require Import ZArith Ascii String List Lia.
From stdpp Require Import base option strings gmap list.
Import ListNotations.

Local Open Scope string_scope.

(** ** Go's [fmt] with an empty operand list

    [isAlertReady] builds its terminal error with [fmt.Errorf(c.Message)]:
    the condition message is the FORMAT and there are no operands.  This
    module follows [doPrintf] of package [fmt] of the Go standard library for that
    case ([len(a) = 0]).  A Go string is a sequence of bytes, here a
    [string] of 8-bit [ascii] characters. *)
Module Fmt.

Definition byte_of (c : ascii) : N := N_of_ascii c.

Definition percentSign : ascii := "%"%char.

Definition noVerbString : string := "%!(NOVERB)".
Definition badWidthString : string := "%!(BADWIDTH)".
Definition badPrecString : string := "%!(BADPREC)".
Definition missingString : string := "(MISSING)".
Definition badIndexString : string := "(BADINDEX)".
Definition percentBangString : string := "%!".

(** [utf8.RuneError] encoded in UTF-8, what [writeRune] emits for it. *)
Definition runeErrorBytes : string :=
  String (ascii_of_N 239) (String (ascii_of_N 191) (String (ascii_of_N 189) "")).

Definition is_digit (c : ascii) : bool :=
  (48 <=? byte_of c)%N && (byte_of c <=? 57)%N.

(** [tooLarge]: [x > 1e6 || x < -1e6]. *)
Definition tooLarge (x : Z) : bool :=
  (1000000 <? x)%Z || (x <? -1000000)%Z.

(** [parsenum(s, start, end)] on the bytes [s[start:end]].  The result is
    [(isnum, rest)] with [rest] the bytes from [newi] on; on overflow Go
    returns [newi = end], that is an empty [rest] and [isnum = false].
    The number itself is only used for the overflow test, since without
    operands no width or precision is ever applied. *)
Fixpoint parsenum_from (num : Z) (isnum : bool) (s : string) : bool * string :=
  match s with
  | String c s' =>
      if is_digit c then
        if tooLarge num then (false, "")
        else parsenum_from (num * 10 + (Z.of_N (byte_of c) - 48))%Z true s'
      else (isnum, s)
  | EmptyString => (isnum, s)
  end.

Definition parsenum (s : string) : bool * string := parsenum_from 0%Z false s.

(** Index of the first [']'] of [s], counted from [i]. *)
Fixpoint find_bracket (i : nat) (s : string) : option nat :=
  match s with
  | EmptyString => None
  | String c s' => if Ascii.eqb c "]"%char then Some i else find_bracket (S i) s'
  end.

(** [parseArgNumber(format)], called on a [format] that starts with ['['];
    the result is [(wid, ok)] (the index is of no use without operands). *)
Definition parseArgNumber (format : string) : nat * bool :=
  if Nat.ltb (String.length format) 3 then (1, false)
  else
    match format with
    | EmptyString => (1, false)
    | String _ tl =>
        match find_bracket 1 tl with
        | None => (1, false)
        | Some i =>
            let '(ok, rest) := parsenum (String.substring 1 (i - 1) format) in
            if negb ok || negb (String.eqb rest "") then (i + 1, false)
            else (i + 1, true)
        end
    end.

Fixpoint drop_bytes (n : nat) (s : string) : string :=
  match n, s with
  | S n', String _ s' => drop_bytes n' s'
  | _, _ => s
  end.

(** [argNumber] with [numArgs = 0]: the result is
    [(rest, found, sawBracket)]; a bracket always clears [goodArgNum]
    because no index is below [numArgs]. *)
Definition argNumber (s : string) : string * bool * bool :=
  match s with
  | String c _ =>
      if Ascii.eqb c "["%char then
        let '(wid, ok) := parseArgNumber s in (drop_bytes wid s, ok, true)
      else (s, false, false)
  | EmptyString => (s, false, false)
  end.

Definition is_flag (c : ascii) : bool :=
  Ascii.eqb c "#"%char || Ascii.eqb c "0"%char || Ascii.eqb c "+"%char
  || Ascii.eqb c "-"%char || Ascii.eqb c " "%char.

(** The [simpleFormat] loop; its fast path needs [argNum < len(a)] and is
    never taken. *)
Fixpoint skip_flags (s : string) : string :=
  match s with
  | String c s' => if is_flag c then skip_flags s' else s
  | EmptyString => s
  end.

Definition in_range (lo hi : N) (c : ascii) : bool :=
  (lo <=? byte_of c)%N && (byte_of c <=? hi)%N.

(** The table [first] of package [utf8] for a lead byte of 0x80 and above:
    the size of the encoding and the range accepted for the second byte;
    size 0 marks a byte that starts no encoding. *)
Definition first_byte (c0 : ascii) : N * N * N :=
  (if in_range 194 223 c0 then (2, 128, 191)
   else if byte_of c0 =? 224 then (3, 160, 191)
   else if in_range 225 236 c0 then (3, 128, 191)
   else if byte_of c0 =? 237 then (3, 128, 159)
   else if in_range 238 239 c0 then (3, 128, 191)
   else if byte_of c0 =? 240 then (4, 144, 191)
   else if in_range 241 243 c0 then (4, 128, 191)
   else if byte_of c0 =? 244 then (4, 128, 143)
   else (0, 0, 0))%N.

(** [utf8.DecodeRuneInString] followed by [writeRune]: the bytes written
    for the verb and the bytes left after it.  A well-formed encoding is
    written back byte for byte; anything else consumes one byte and is
    written as [utf8.RuneError]. *)
Definition decode_verb (s : string) : string * string :=
  match s with
  | EmptyString => ("", "")
  | String c0 s1 =>
      let invalid := (runeErrorBytes, s1) in
      let b0 := byte_of c0 in
      if (b0 <? 128)%N then (String c0 "", s1)
      else
        let '(sz, lo, hi) := first_byte c0 in
        if (sz =? 0)%N then invalid
        else if Nat.ltb (String.length s) (N.to_nat sz) then invalid
        else
          match s1 with
          | String c1 s2 =>
              if negb (in_range lo hi c1) then invalid
              else if (sz <=? 2)%N then (String c0 (String c1 ""), s2)
              else
                match s2 with
                | String c2 s3 =>
                    if negb (in_range 128 191 c2) then invalid
                    else if (sz <=? 3)%N then
                      (String c0 (String c1 (String c2 "")), s3)
                    else
                      match s3 with
                      | String c3 s4 =>
                          if negb (in_range 128 191 c3) then invalid
                          else (String c0 (String c1 (String c2 (String c3 ""))), s4)
                      | EmptyString => invalid
                      end
                | EmptyString => invalid
                end
          | EmptyString => invalid
          end
  end.

(** The bytes after a leading [c], when [s] starts with [c]. *)
Definition after_byte (c : ascii) (s : string) : option string :=
  match s with
  | String c' s' => if Ascii.eqb c' c then Some s' else None
  | EmptyString => None
  end.

(** The state of one verb between its stages: the text written by the
    stage, the format left, [afterIndex] and [goodArgNum]. *)
Definition stage : Type := string * string * bool * bool.

(** "Do we have width?"  A star finds no operand to read the width from. *)
Definition width (s : string) (afterIndex goodArgNum : bool) : stage :=
  match after_byte "*" s with
  | Some s' => (badWidthString, s', false, goodArgNum)
  | None =>
      let '(widPresent, s') := parsenum s in
      ("", s', afterIndex, goodArgNum && negb (afterIndex && widPresent))
  end.

(** "Do we have precision?" *)
Definition precision (s : string) (afterIndex goodArgNum : bool) : stage :=
  match after_byte "." s with
  | Some s' =>
      let goodArgNum := goodArgNum && negb afterIndex in
      let '(s', afterIndex, bracket) := argNumber s' in
      let goodArgNum := goodArgNum && negb bracket in
      match after_byte "*" s' with
      | Some s'' => (badPrecString, s'', false, goodArgNum)
      | None => ("", snd (parsenum s'), afterIndex, goodArgNum)
      end
  | None => ("", s, afterIndex, goodArgNum)
  end.

(** One verb: [s] is the format after the ['%'].  The result is the text
    written and the format left; [None] for the latter is the [break] out
    of the format loop after [%!(NOVERB)]. *)
Definition verb (s : string) : string * option string :=
  let s := skip_flags s in
  let '(s, afterIndex, bracket) := argNumber s in
  let goodArgNum := negb bracket in
  let '(out1, s, afterIndex, goodArgNum) := width s afterIndex goodArgNum in
  let '(out2, s, afterIndex, goodArgNum) := precision s afterIndex goodArgNum in
  let '(s, goodArgNum) :=
    if afterIndex then (s, goodArgNum)
    else let '(s', _, bracket) := argNumber s in (s', goodArgNum && negb bracket) in
  match s with
  | EmptyString => (out1 ++ out2 ++ noVerbString, None)
  | String c _ =>
      let '(v, rest) := decode_verb s in
      let text :=
        if Ascii.eqb c percentSign then "%"
        else if negb goodArgNum then percentBangString ++ v ++ badIndexString
        else percentBangString ++ v ++ missingString in
      (out1 ++ out2 ++ text, Some rest)
  end.

(** The format loop.  Every round consumes at least one byte, so the
    length of the format bounds the number of rounds. *)
Fixpoint doPrintf (rounds : nat) (format : string) : string :=
  match rounds with
  | O => ""
  | S rounds' =>
      match format with
      | EmptyString => ""
      | String c rest =>
          if Ascii.eqb c percentSign then
            match verb rest with
            | (out, Some rest') => out ++ doPrintf rounds' rest'
            | (out, None) => out
            end
          else String c (doPrintf rounds' rest)
      end
  end.

(** [fmt.Sprintf(format)] with no operands. *)
Definition Sprintf (format : string) : string :=
  doPrintf (String.length format) format.

Fixpoint has_percent (s : string) : bool :=
  match s with
  | EmptyString => false
  | String c s' => Ascii.eqb c percentSign || has_percent s'
  end.

End Fmt.

(** ** The API types

    The fields the two commands read or write, under the names they have in
    [k8s.io/apimachinery], [k8s.io/api/core/v1], [fluxcd/pkg/apis/meta] and
    the notification controller's [v1beta1] API. *)

Module metav1.
Record TypeMeta := { Kind : string; APIVersion : string }.

Record ObjectMeta := {
  Name : string;
  Namespace : string;
  Labels : gmap string string;
  Annotations : gmap string string;
  ResourceVersion : string;
  UID : string;
  Generation : Z
}.
End metav1.

Module corev1.
Definition ConditionStatus := string.
Definition ConditionTrue : ConditionStatus := "True".
Definition ConditionFalse : ConditionStatus := "False".
Definition ConditionUnknown : ConditionStatus := "Unknown".

Record LocalObjectReference := { Name : string }.
End corev1.

Module meta.
Record Condition := {
  Type_ : string;                 (* Type *)
  Status : corev1.ConditionStatus;
  LastTransitionTime : string;
  Reason : string;
  Message : string
}.

Definition ReadyCondition : string := "Ready".

(** [meta.GetCondition]: the first condition of the given type, [nil]
    when there is none. *)
Fixpoint GetCondition (conditions : list Condition) (conditionType : string)
  : option Condition :=
  match conditions with
  | [] => None
  | c :: rest =>
      if String.eqb (Type_ c) conditionType then Some c
      else GetCondition rest conditionType
  end.
End meta.

Module types.
Record NamespacedName := { Namespace : string; Name : string }.
End types.

Module notificationv1.
Record CrossNamespaceObjectReference := {
  RefKind : string;
  RefName : string;
  RefNamespace : string
}.

Module AlertSpec.
Record t := {
  ProviderRef : corev1.LocalObjectReference;
  EventSeverity : string;
  EventSources : list CrossNamespaceObjectReference;
  Suspend : bool
}.
End AlertSpec.

Module Alert.
Record t := {
  TypeMeta : metav1.TypeMeta;
  ObjectMeta : metav1.ObjectMeta;
  Spec : AlertSpec.t;
  Status : list meta.Condition   (* Status.Conditions *)
}.

Definition GetName (a : t) : string := metav1.Name (ObjectMeta a).
Definition GetNamespace (a : t) : string := metav1.Namespace (ObjectMeta a).
(** [a.Labels], promoted from the embedded [ObjectMeta]. *)
Definition Labels (a : t) : gmap string string := metav1.Labels (ObjectMeta a).

(** [a.Labels = l] on a copy of [a]. *)
Definition setLabels (l : gmap string string) (a : t) : t :=
  {| TypeMeta := TypeMeta a;
     ObjectMeta :=
       {| metav1.Name := metav1.Name (ObjectMeta a);
          metav1.Namespace := metav1.Namespace (ObjectMeta a);
          metav1.Labels := l;
          metav1.Annotations := metav1.Annotations (ObjectMeta a);
          metav1.ResourceVersion := metav1.ResourceVersion (ObjectMeta a);
          metav1.UID := metav1.UID (ObjectMeta a);
          metav1.Generation := metav1.Generation (ObjectMeta a) |};
     Spec := Spec a;
     Status := Status a |}.

(** [a.Spec = s] on a copy of [a]. *)
Definition setSpec (s : AlertSpec.t) (a : t) : t :=
  {| TypeMeta := TypeMeta a; ObjectMeta := ObjectMeta a;
     Spec := s; Status := Status a |}.
End Alert.

Module ReceiverSpec.
Record t := {
  Type_ : string;               (* Type *)
  Events : list string;
  Resources : list CrossNamespaceObjectReference;
  SecretRef : corev1.LocalObjectReference;
  Suspend : bool
}.
End ReceiverSpec.

Module Receiver.
Record t := {
  TypeMeta : metav1.TypeMeta;
  ObjectMeta : metav1.ObjectMeta;
  Spec : ReceiverSpec.t;
  Status : list meta.Condition;   (* Status.Conditions *)
  URL : string                    (* Status.URL *)
}.

Definition GetName (r : t) : string := metav1.Name (ObjectMeta r).
Definition GetNamespace (r : t) : string := metav1.Namespace (ObjectMeta r).
End Receiver.
End notificationv1.

Import notificationv1.

(** ** Errors

    A Go [error] is [nil] or a value; the commands meet two kinds: the
    status errors of the API machinery, which carry a reason, and the plain
    text errors of [fmt.Errorf] and [errors.New]. *)
Inductive error :=
| StatusError (reason : string) (message : string)
| errorString (s : string).

(** [err.Error()]. *)
Definition Error (e : error) : string :=
  match e with
  | StatusError _ message => message
  | errorString s => s
  end.

Module errors.
Definition StatusReasonNotFound : string := "NotFound".

(** [errors.IsNotFound]. *)
Definition IsNotFound (e : error) : bool :=
  match e with
  | StatusError reason _ => String.eqb reason StatusReasonNotFound
  | errorString _ => false
  end.
End errors.

(** [fmt.Errorf(format)], called with a format and nothing else. *)
Definition Errorf (format : string) : error := errorString (Fmt.Sprintf format).

(** [wait.ErrWaitTimeout]. *)
Definition ErrWaitTimeout : error := errorString "timed out waiting for the condition".

(** ** [strconv] and [strings] *)

Definition FormatBool (b : bool) : string := if b then "true" else "false".

Definition is_alnum_underscore (c : ascii) : bool :=
  Fmt.in_range 48 57 c || Fmt.in_range 97 122 c || Fmt.in_range 65 90 c
  || Ascii.eqb c "_"%char.

(** [strings.Title] on ASCII text: a letter that follows a separator (or
    starts the string) is upper-cased.  The command applies it to the two
    outputs of [FormatBool] only; bytes above 0x7F are left alone here. *)
Fixpoint Title_from (prevSep : bool) (s : string) : string :=
  match s with
  | EmptyString => EmptyString
  | String c s' =>
      let c' :=
        if prevSep && Fmt.in_range 97 122 c
        then ascii_of_N (Fmt.byte_of c - 32) else c in
      let sep := Fmt.in_range 0 127 c && negb (is_alnum_underscore c) in
      String c' (Title_from sep s')
  end.

Definition Title (s : string) : string := Title_from true s.

(** ** The world outside the process *)

(** [client.ListOption]; the command only ever builds [client.InNamespace]. *)
Inductive ListOption := InNamespace (ns : string).

(** The printing methods of the package-level [logger]. *)
Inductive LogLevel := Generatef | Actionf | Waitingf | Successf | Failuref.

(** What leaves the process, in the order it does. *)
Inductive Event :=
| EvKubeClient (kubeconfig : string)           (* utils.kubeClient *)
| EvGet (key : types.NamespacedName)           (* kubeClient.Get *)
| EvCreate (obj : Alert.t)                     (* kubeClient.Create *)
| EvUpdate (obj : Alert.t)                     (* kubeClient.Update *)
| EvList (opts : list ListOption)              (* kubeClient.List *)
| EvLog (level : LogLevel) (line : string)     (* logger.*f *)
| EvExport (obj : Alert.t)                     (* exportAlert *)
| EvPrintTable (header : list string) (rows : list (list string)).

(** The events that reach the API server or prepare to. *)
Definition is_network (ev : Event) : bool :=
  match ev with
  | EvKubeClient _ | EvGet _ | EvCreate _ | EvUpdate _ | EvList _ => true
  | EvLog _ _ | EvExport _ | EvPrintTable _ _ => false
  end.

(** The package-level flag variables of [cmd/gotk]. *)
Record Flags := {
  aProviderRef : string;
  aEventSeverity : string;
  aEventSources : list string;
  labels : list string;
  export : bool;
  namespace : string;
  allNamespaces : bool;
  kubeconfig : string;
  timeout : Z;
  pollInterval : Z
}.

(** [client.Client] over a server state [K]: each method takes the state
    and returns its answer with the state after the call. *)
Record KubeClient (K : Type) := {
  Get : types.NamespacedName -> K -> (error + Alert.t) * K;
  Create : Alert.t -> K -> option error * K;
  Update : Alert.t -> K -> option error * K;
  List : list ListOption -> K -> (error + list Receiver.t) * K
}.
Arguments Get {K}.
Arguments Create {K}.
Arguments Update {K}.
Arguments List {K}.

Record World (K : Type) := { cluster : K; trace : list Event }.
Arguments cluster {K}.
Arguments trace {K}.

(** ** The state monad the commands run in *)

Definition M (K A : Type) : Type := World K -> A * World K.

Definition ret {K A} (a : A) : M K A := fun w => (a, w).

Definition bind {K A B} (m : M K A) (f : A -> M K B) : M K B :=
  fun w => let '(a, w') := m w in f a w'.

Declare Scope go_scope.
Delimit Scope go_scope with go.
Notation "x <- m ;; k" := (bind m (fun x => k))
  (at level 100, m at next level, right associativity) : go_scope.
Notation "m ;;; k" := (bind m (fun _ => k))
  (at level 100, right associativity) : go_scope.

Definition emit {K} (ev : Event) : M K unit :=
  fun w => (tt, {| cluster := cluster w; trace := trace w ++ [ev] |}).

(** A client call: the event is recorded and the server answers. *)
Definition call {K A} (ev : Event) (f : K -> A * K) : M K A :=
  fun w =>
    let '(a, k') := f (cluster w) in
    (a, {| cluster := k'; trace := trace w ++ [ev] |}).

Definition logger {K} (level : LogLevel) (line : string) : M K unit :=
  emit (EvLog level line).

(** The events a run adds to the trace it starts from. *)
Definition events_since {K} (w w' : World K) : list Event :=
  drop (length (trace w)) (trace w').

(** ** The commands *)

Section Commands.

Context {K : Type}.

(** [utils.parseObjectKindName], whose source is in another file of the
    package: from ["<kind>/<name>"] to the kind and the name. *)
Variable parseObjectKindName : string -> string * string.

(** [parseLabels], from another file of the package: it reads the
    [--label] flags and gives the label map or an error. *)
Variable parseLabels : list string -> error + gmap string string.

(** [utils.kubeClient]'s result for a kubeconfig path. *)
Variable kubeClientFor : string -> error + KubeClient K.

(** What [exportAlert] returns for an object. *)
Variable exportResult : Alert.t -> option error.

(** How many ticks the poller of [wait.PollImmediate] delivers for an
    interval and a timeout before it gives up. *)
Variable pollerTicks : Z -> Z -> nat.

Local Open Scope go_scope.

Definition utils_kubeClient (path : string) : M K (error + KubeClient K) :=
  emit (EvKubeClient path) ;;; ret (kubeClientFor path).

(** Modelled from the spec: [exportAlert] is in a file of the package that
    is not part of the sources at hand; it "serializes the desired object
    to a text representation without any network call". *)
Definition exportAlert (alert : Alert.t) : M K (option error) :=
  emit (EvExport alert) ;;; ret (exportResult alert).

(** [utils.printTable(os.Stdout, header, rows)]. *)
Definition printTable (header : list string) (rows : list (list string)) : M K unit :=
  emit (EvPrintTable header rows).

(** *** [upsertAlert] *)

Definition upsertAlert (kubeClient : KubeClient K) (alert : Alert.t)
  : M K (option error) :=
  let namespacedName :=
    {| types.Namespace := Alert.GetNamespace alert;
       types.Name := Alert.GetName alert |} in
  r <- call (EvGet namespacedName) (Get kubeClient namespacedName) ;;
  match r with
  | inl err =>
      if errors.IsNotFound err then
        e <- call (EvCreate alert) (Create kubeClient alert) ;;
        match e with
        | Some err => ret (Some err)
        | None => logger Successf "alert created" ;;; ret None
        end
      else ret (Some err)
  | inr existing =>
      let existing := Alert.setLabels (Alert.Labels alert) existing in
      let existing := Alert.setSpec (Alert.Spec alert) existing in
      e <- call (EvUpdate existing) (Update kubeClient existing) ;;
      match e with
      | Some err => ret (Some err)
      | None => logger Successf "alert updated" ;;; ret None
      end
  end.

(** *** [isAlertReady]

    The [wait.ConditionFunc] it returns, that is one poll step:
    [(done, err)]. *)
Definition isAlertReady (kubeClient : KubeClient K) (name namespace : string)
  : M K (bool * option error) :=
  let namespacedName :=
    {| types.Namespace := namespace; types.Name := name |} in
  r <- call (EvGet namespacedName) (Get kubeClient namespacedName) ;;
  match r with
  | inl err => ret (false, Some err)
  | inr alert =>
      match meta.GetCondition (Alert.Status alert) meta.ReadyCondition with
      | Some c =>
          if String.eqb (meta.Status c) corev1.ConditionTrue then ret (true, None)
          else if String.eqb (meta.Status c) corev1.ConditionFalse then
            ret (false, Some (Errorf (meta.Message c)))
          else ret (false, None)
      | None => ret (false, None)
      end
  end.

(** [wait.PollImmediate]: the condition runs at once and then once per
    tick; an error ends the wait, so does [done]; when the ticks are used
    up the wait ends in [ErrWaitTimeout]. *)
Fixpoint poll (ticks : nat) (condition : M K (bool * option error))
  : M K (option error) :=
  r <- condition ;;
  match r with
  | (_, Some err) => ret (Some err)
  | (true, None) => ret None
  | (false, None) =>
      match ticks with
      | O => ret (Some ErrWaitTimeout)
      | S ticks' => poll ticks' condition
      end
  end.

Definition PollImmediate (interval timeout : Z) (condition : M K (bool * option error))
  : M K (option error) :=
  poll (pollerTicks interval timeout) condition.

(** *** [createAlertCmdRun] *)

(** [fmt.Errorf] of the loop below, its one [%s] operand spliced in. *)
Definition invalidEventSource (eventSource : string) : error :=
  errorString ("invalid event source '" ++ eventSource
               ++ "', must be in format <kind>/<name>").

(** The loop over [aEventSources]: it appends one reference per flag and
    returns at the first one whose kind is empty. *)
Fixpoint parseEventSources (sources : list string)
    (eventSources : list CrossNamespaceObjectReference)
  : error + list CrossNamespaceObjectReference :=
  match sources with
  | [] => inr eventSources
  | eventSource :: rest =>
      let '(kind, name) := parseObjectKindName eventSource in
      if String.eqb kind "" then inl (invalidEventSource eventSource)
      else
        parseEventSources rest
          (eventSources
             ++ [{| RefKind := kind; RefName := name; RefNamespace := "" |}])%list
  end.

(** The desired object, as the composite literal builds it. *)
Definition desiredAlert (fl : Flags) (name : string)
    (sourceLabels : gmap string string)
    (eventSources : list CrossNamespaceObjectReference) : Alert.t :=
  {| Alert.TypeMeta := {| metav1.Kind := ""; metav1.APIVersion := "" |};
     Alert.ObjectMeta :=
       {| metav1.Name := name;
          metav1.Namespace := namespace fl;
          metav1.Labels := sourceLabels;
          metav1.Annotations := ∅;
          metav1.ResourceVersion := "";
          metav1.UID := "";
          metav1.Generation := 0 |};
     Alert.Spec :=
       {| AlertSpec.ProviderRef := {| corev1.Name := aProviderRef fl |};
          AlertSpec.EventSeverity := aEventSeverity fl;
          AlertSpec.EventSources := eventSources;
          AlertSpec.Suspend := false |};
     Alert.Status := [] |}.

Definition createAlertCmdRun (fl : Flags) (args : list string) : M K (option error) :=
  match args with
  | [] => ret (Some (Errorf "alert name is required"))
  | name :: _ =>
      if String.eqb (aProviderRef fl) "" then
        ret (Some (Errorf "provider ref is required"))
      else
        match parseEventSources (aEventSources fl) [] with
        | inl err => ret (Some err)
        | inr eventSources =>
            if Nat.eqb (length eventSources) 0 then
              ret (Some (Errorf "at least one event source is required"))
            else
              match parseLabels (labels fl) with
              | inl err => ret (Some err)
              | inr sourceLabels =>
                  (if export fl then ret tt
                   else logger Generatef "generating alert") ;;;
                  let alert := desiredAlert fl name sourceLabels eventSources in
                  if export fl then exportAlert alert
                  else
                    c <- utils_kubeClient (kubeconfig fl) ;;
                    match c with
                    | inl err => ret (Some err)
                    | inr kubeClient =>
                        logger Actionf "applying alert" ;;;
                        e <- upsertAlert kubeClient alert ;;
                        match e with
                        | Some err => ret (Some err)
                        | None =>
                            logger Waitingf "waiting for reconciliation" ;;;
                            e <- PollImmediate (pollInterval fl) (timeout fl)
                                   (isAlertReady kubeClient name (namespace fl)) ;;
                            match e with
                            | Some err => ret (Some err)
                            | None =>
                                logger Successf ("alert " ++ name ++ " is ready") ;;;
                                ret None
                            end
                        end
                    end
              end
        end
  end.

(** *** [getReceiverCmdRun] *)

(** The body of the loop over [list.Items]: the row of one receiver. *)
Definition receiverRow (receiver : Receiver.t) : list string :=
  match meta.GetCondition (Receiver.Status receiver) meta.ReadyCondition with
  | Some c =>
      [ Receiver.GetName receiver;
        Title (FormatBool (ReceiverSpec.Suspend (Receiver.Spec receiver)));
        meta.Status c;
        meta.Message c ]
  | None =>
      [ Receiver.GetName receiver;
        Title (FormatBool (ReceiverSpec.Suspend (Receiver.Spec receiver)));
        corev1.ConditionFalse;
        "waiting to be reconciled" ]
  end.

(** The loop itself: [rows = append(rows, row)] item after item. *)
Definition receiverRows (items : list Receiver.t) : list (list string) :=
  fold_left (fun rows receiver => (rows ++ [receiverRow receiver])%list) items [].

Definition receiverHeader (fl : Flags) : list string :=
  let header := ["Name"; "Suspended"; "Ready"; "Message"] in
  if allNamespaces fl then (["Namespace"] ++ header)%list else header.

Definition getReceiverCmdRun (fl : Flags) (args : list string) : M K (option error) :=
  c <- utils_kubeClient (kubeconfig fl) ;;
  match c with
  | inl err => ret (Some err)
  | inr kubeClient =>
      let listOpts :=
        if allNamespaces fl then [] else ([] ++ [InNamespace (namespace fl)])%list in
      r <- call (EvList listOpts) (List kubeClient listOpts) ;;
      match r with
      | inl err => ret (Some err)
      | inr items =>
          if Nat.eqb (length items) 0 then
            logger Failuref ("no receivers found in " ++ namespace fl ++ " namespace") ;;;
            ret None
          else
            printTable (receiverHeader fl) (receiverRows items) ;;;
            ret None
      end
  end.

End Commands.

(** ** An in-memory API server

    A server state that holds alerts by namespace and name and a list of
    receivers, with a client over it in the manner of controller-runtime's
    fake client.  [failure] makes every call fail with the given error, the
    way a transport or permission problem would. *)
Module Fake.

Record Cluster := {
  alerts : gmap (string * string) Alert.t;
  receivers : list Receiver.t;
  failure : option error
}.

Definition keyOf (key : types.NamespacedName) : string * string :=
  (types.Namespace key, types.Name key).

Definition keyOfAlert (a : Alert.t) : string * string :=
  (Alert.GetNamespace a, Alert.GetName a).

Definition notFound (name : string) : error :=
  StatusError errors.StatusReasonNotFound ("alerts '" ++ name ++ "' not found").

Definition alreadyExists (name : string) : error :=
  StatusError "AlreadyExists" ("alerts '" ++ name ++ "' already exists").

Definition store (a : Alert.t) (k : Cluster) : Cluster :=
  {| alerts := <[keyOfAlert a := a]> (alerts k);
     receivers := receivers k;
     failure := failure k |}.

Definition get (key : types.NamespacedName) (k : Cluster) : (error + Alert.t) * Cluster :=
  match failure k with
  | Some err => (inl err, k)
  | None =>
      match alerts k !! keyOf key with
      | Some a => (inr a, k)
      | None => (inl (notFound (types.Name key)), k)
      end
  end.

Definition create (a : Alert.t) (k : Cluster) : option error * Cluster :=
  match failure k with
  | Some err => (Some err, k)
  | None =>
      match alerts k !! keyOfAlert a with
      | Some _ => (Some (alreadyExists (Alert.GetName a)), k)
      | None => (None, store a k)
      end
  end.

Definition update (a : Alert.t) (k : Cluster) : option error * Cluster :=
  match failure k with
  | Some err => (Some err, k)
  | None =>
      match alerts k !! keyOfAlert a with
      | Some _ => (None, store a k)
      | None => (Some (notFound (Alert.GetName a)), k)
      end
  end.

Definition inScope (opts : list ListOption) (r : Receiver.t) : bool :=
  forallb (fun '(InNamespace ns) => String.eqb (Receiver.GetNamespace r) ns) opts.

Definition listReceivers (opts : list ListOption) (k : Cluster)
  : (error + list Receiver.t) * Cluster :=
  match failure k with
  | Some err => (inl err, k)
  | None => (inr (List.filter (inScope opts) (receivers k)), k)
  end.

Definition client : KubeClient Cluster :=
  {| Get := get; Create := create; Update := update; List := listReceivers |}.

Definition empty : Cluster := {| alerts := ∅; receivers := []; failure := None |}.

Definition start (k : Cluster) : World Cluster := {| cluster := k; trace := [] |}.

(** The helpers of the package that live in other files, as the tests
    below instantiate them. *)

Fixpoint splitAt (sep : ascii) (s : string) : option (string * string) :=
  match s with
  | EmptyString => None
  | String c s' =>
      if Ascii.eqb c sep then Some ("", s')
      else
        match splitAt sep s' with
        | Some (l, r) => Some (String c l, r)
        | None => None
        end
  end.

(** Modelled from the spec: [utils.parseObjectKindName] is in a file of
    the package that is not part of the sources at hand.  An event source
    is "parsed from a <kind>/<name> string; invalid format (missing /) is
    a validation error", which the caller detects as an empty kind. *)
Definition parseObjectKindName (input : string) : string * string :=
  match splitAt "/"%char input with
  | Some (kind, name) => (kind, name)
  | None => ("", input)
  end.

Definition parseLabels (_ : list string) : error + gmap string string := inr ∅.

Definition kubeClientFor (_ : string) : error + KubeClient Cluster := inr client.

Definition exportResult (_ : Alert.t) : option error := None.

Definition pollerTicks (interval timeout : Z) : nat := Z.to_nat (timeout / interval).

(** Some objects for the examples. *)

Definition flags : Flags :=
  {| aProviderRef := "slack";
     aEventSeverity := "info";
     aEventSources := ["Kustomization/gotk-system"];
     labels := [];
     export := false;
     namespace := "gotk-system";
     allNamespaces := false;
     kubeconfig := "~/.kube/config";
     timeout := 300;
     pollInterval := 2 |}.

Definition desired : Alert.t :=
  desiredAlert flags "gotk-system" ∅
    [{| RefKind := "Kustomization"; RefName := "gotk-system"; RefNamespace := "" |}].

Definition condition (status message : string) : meta.Condition :=
  {| meta.Type_ := meta.ReadyCondition;
     meta.Status := status;
     meta.LastTransitionTime := "2020-10-01T10:00:00Z";
     meta.Reason := "";
     meta.Message := message |}.

(** An alert the server already holds under the name of [desired], with
    server-managed metadata, another spec and a status. *)
Definition stored (conditions : list meta.Condition) : Alert.t :=
  {| Alert.TypeMeta := {| metav1.Kind := "Alert";
                          metav1.APIVersion := "notification.toolkit.fluxcd.io/v1beta1" |};
     Alert.ObjectMeta :=
       {| metav1.Name := "gotk-system";
          metav1.Namespace := "gotk-system";
          metav1.Labels := {[ "team" := "ops" ]};
          metav1.Annotations := {[ "note" := "kept" ]};
          metav1.ResourceVersion := "4711";
          metav1.UID := "0b8f2c";
          metav1.Generation := 3 |};
     Alert.Spec :=
       {| AlertSpec.ProviderRef := {| corev1.Name := "discord" |};
          AlertSpec.EventSeverity := "error";
          AlertSpec.EventSources := [];
          AlertSpec.Suspend := true |};
     Alert.Status := conditions |}.

Definition holding (a : Alert.t) : Cluster := store a empty.

Definition failing (err : error) : Cluster :=
  {| alerts := ∅; receivers := []; failure := Some err |}.

Definition forbidden : error :=
  StatusError "Forbidden" "alerts is forbidden".

Definition receiver (ns name : string) (suspend : bool)
    (conditions : list meta.Condition) : Receiver.t :=
  {| Receiver.TypeMeta := {| metav1.Kind := "Receiver";
                             metav1.APIVersion := "notification.toolkit.fluxcd.io/v1beta1" |};
     Receiver.ObjectMeta :=
       {| metav1.Name := name;
          metav1.Namespace := ns;
          metav1.Labels := ∅;
          metav1.Annotations := ∅;
          metav1.ResourceVersion := "1";
          metav1.UID := "";
          metav1.Generation := 1 |};
     Receiver.Spec :=
       {| ReceiverSpec.Type_ := "github";
          ReceiverSpec.Events := ["push"];
          ReceiverSpec.Resources := [];
          ReceiverSpec.SecretRef := {| corev1.Name := "token" |};
          ReceiverSpec.Suspend := suspend |};
     Receiver.Status := conditions;
     Receiver.URL := "" |}.

Definition withReceivers (rs : list Receiver.t) : Cluster :=
  {| alerts := ∅; receivers := rs; failure := None |}.

End Fake.

(** ** Vocabulary of the statements

    Names for the objects and events the properties below speak about. *)

(** The key [upsertAlert] fetches by. *)
Definition alertKey (alert : Alert.t) : types.NamespacedName :=
  {| types.Namespace := Alert.GetNamespace alert; types.Name := Alert.GetName alert |}.

Definition is_update (ev : Event) : bool :=
  match ev with EvUpdate _ => true | _ => false end.

Definition is_create (ev : Event) : bool :=
  match ev with EvCreate _ => true | _ => false end.

(** What [upsertAlert] sends to Update: the fetched object after
    [existing.Labels = alert.Labels] and [existing.Spec = alert.Spec]. *)
Definition mergeInto (alert existing : Alert.t) : Alert.t :=
  Alert.setSpec (Alert.Spec alert) (Alert.setLabels (Alert.Labels alert) existing).

Definition outcome (e : option error) (line : string) : list Event :=
  match e with
  | None => [EvLog Successf line]
  | Some _ => []
  end.

(** Kinds of events. *)
Definition is_get (ev : Event) : bool :=
  match ev with EvGet _ => true | _ => false end.

Definition is_write (ev : Event) : bool :=
  match ev with EvCreate _ | EvUpdate _ => true | _ => false end.

Definition is_list (ev : Event) : bool :=
  match ev with EvList _ => true | _ => false end.

Definition is_log (ev : Event) : bool :=
  match ev with EvLog _ _ => true | _ => false end.

Definition is_table (ev : Event) : bool :=
  match ev with EvPrintTable _ _ => true | _ => false end.

(** What a run of [upsertAlert] can do after its fetch, with what it then
    returns: nothing and the fetch error; a Create that fails; a Create
    that succeeds and its line; an Update that fails; an Update that
    succeeds and its line. *)
Inductive UpsertShape (alert : Alert.t) : list Event -> option error -> Prop :=
| shape_fetch_error err :
    UpsertShape alert [] (Some err)
| shape_create_error err :
    UpsertShape alert [EvCreate alert] (Some err)
| shape_created :
    UpsertShape alert [EvCreate alert; EvLog Successf "alert created"] None
| shape_update_error existing err :
    UpsertShape alert [EvUpdate (mergeInto alert existing)] (Some err)
| shape_updated existing :
    UpsertShape alert
      [EvUpdate (mergeInto alert existing); EvLog Successf "alert updated"] None.

(** The key a poll step fetches by. *)
Definition pollKey (name namespace : string) : types.NamespacedName :=
  {| types.Namespace := namespace; types.Name := name |}.

(** The list options of the command: none across all namespaces, the
    namespace flag otherwise. *)
Definition listScope (fl : Flags) : list ListOption :=
  if allNamespaces fl then [] else [InNamespace (namespace fl)].

Definition nothingFound (fl : Flags) : string :=
  "no receivers found in " ++ namespace fl ++ " namespace".

(** Two receivers of one namespace, one reconciled and one not yet. *)
Definition twoReceivers : list Receiver.t :=
  [ Fake.receiver "gotk-system" "github-hook" false
      [Fake.condition "True" "Receiver initialised"];
    Fake.receiver "gotk-system" "harbor-hook" true [] ].

(** [appends P m]: from any world, [m] leaves the earlier trace in place
    and adds only events that satisfy [P]. *)
Definition appends {K A} (P : Event -> Prop) (m : M K A) : Prop :=
  forall w, exists evs, trace (m w).2 = (trace w ++ evs)%list /\ Forall P evs.

(** The errors the command raises from its arguments and flags alone. *)
Definition validationError (fl : Flags) (err : error) : Prop :=
  err = errorString "alert name is required"
  \/ err = errorString "provider ref is required"
  \/ (exists eventSource,
        In eventSource (aEventSources fl)
        /\ err = errorString ("invalid event source '" ++ eventSource
                              ++ "', must be in format <kind>/<name>"))
  \/ err = errorString "at least one event source is required".

(** An event that carries an alert carries one that is not suspended. *)
Definition unsuspended (ev : Event) : Prop :=
  match ev with
  | EvExport obj | EvCreate obj | EvUpdate obj =>
      AlertSpec.Suspend (Alert.Spec obj) = false
  | _ => True
  end.

(** The reference the loop of [createAlertCmdRun] appends for one
    [--event-source] flag. *)
Definition referenceOf (parseObjectKindName : string -> string * string)
    (eventSource : string) : CrossNamespaceObjectReference :=
  {| RefKind := (parseObjectKindName eventSource).1;
     RefName := (parseObjectKindName eventSource).2;
     RefNamespace := "" |}.

(** Flags that pass every check of [createAlertCmdRun], with the event
    sources and the labels they parse to. *)
Definition validated (parseObjectKindName : string -> string * string)
    (parseLabels : list string -> error + gmap string string) (fl : Flags)
    (eventSources : list CrossNamespaceObjectReference)
    (sourceLabels : gmap string string) : Prop :=
  aProviderRef fl <> ""
  /\ parseEventSources parseObjectKindName (aEventSources fl) [] = inr eventSources
  /\ eventSources <> []
  /\ parseLabels (labels fl) = inr sourceLabels.

(** [writes_at_most n m]: from any world, [m] leaves the earlier trace in
    place and adds at most [n] writes (Create or Update). *)
Definition writes_at_most {K A} (n : nat) (m : M K A) : Prop :=
  forall w, exists evs,
    trace (m w).2 = (trace w ++ evs)%list
    /\ length (List.filter is_write evs) <= n.

(** What [create alert <name>] may do: fetch the alert of that name in the
    namespace of the flags, create an alert of that name and namespace,
    update, export, log, build a client; it may not list or print a table. *)
Definition footprint (fl : Flags) (name : string) (ev : Event) : Prop :=
  match ev with
  | EvGet k => k = {| types.Namespace := namespace fl; types.Name := name |}
  | EvCreate obj =>
      Alert.GetName obj = name /\ Alert.GetNamespace obj = namespace fl
  | EvList _ | EvPrintTable _ _ => False
  | _ => True
  end.

(** The lines of [createAlertCmdRun]. *)
Definition generatingLine : Event := EvLog Generatef "generating alert".
Definition applyingLine : Event := EvLog Actionf "applying alert".
Definition waitingLine : Event := EvLog Waitingf "waiting for reconciliation".
Definition readyLine (name : string) : Event :=
  EvLog Successf ("alert " ++ name ++ " is ready").

(** The world in which [upsertAlert] starts. *)
Definition applying {K} (fl : Flags) (w : World K) : World K :=
  {| cluster := cluster w;
     trace := (trace w ++ [generatingLine; EvKubeClient (kubeconfig fl);
                           applyingLine])%list |}.

(** The world in which the wait starts, from the one [upsertAlert] left. *)
Definition waiting {K} (w : World K) : World K :=
  {| cluster := cluster w; trace := (trace w ++ [waitingLine])%list |}.

(** [createAlertCmdRun] over the in-memory server. *)
Definition createAlertFake :=
  createAlertCmdRun Fake.parseObjectKindName Fake.parseLabels Fake.kubeClientFor
    Fake.exportResult Fake.pollerTicks.

(** The flags of the example of the command's help text, with one change. *)
Definition flagsWith (sources : list string) (exporting : bool) : Flags :=
  {| aProviderRef := "slack";
     aEventSeverity := "info";
     aEventSources := sources;
     labels := [];
     export := exporting;
     namespace := "gotk-system";
     allNamespaces := false;
     kubeconfig := "~/.kube/config";
     timeout := 300;
     pollInterval := 2 |}.

(** ** Properties *)

(** *** The trace only grows *)

Lemma events_since_app {K} (w : World K) (k : K) (evs : list Event) :
  events_since w {| cluster := k; trace := (trace w ++ evs)%list |} = evs.
Proof. unfold events_since; simpl. apply drop_app_length. Qed.

(** Unfolds the monad of a command down to pairs and records. *)
Ltac run_go :=
  unfold upsertAlert, isAlertReady, utils_kubeClient, exportAlert, printTable,
         logger, call, emit, bind, ret in *;
  simpl in *.

(** *** [upsertAlert] *)

Section Upsert.

Context {K : Type} (kubeClient : KubeClient K) (alert : Alert.t) (w : World K).

Lemma upsertAlert_not_found err k1 e k2 :
  Get kubeClient (alertKey alert) (cluster w) = (inl err, k1) ->
  errors.IsNotFound err = true ->
  Create kubeClient alert k1 = (e, k2) ->
  upsertAlert kubeClient alert w =
    (e, {| cluster := k2;
           trace := (trace w ++ [EvGet (alertKey alert); EvCreate alert]
                     ++ outcome e "alert created")%list |}).
Proof.
  intros Hget Hnf Hcreate. unfold alertKey in *. run_go.
  rewrite Hget; simpl; rewrite Hnf; simpl; rewrite Hcreate.
  destruct e; simpl; rewrite <- !app_assoc; reflexivity.
Qed.

Lemma upsertAlert_found existing k1 e k2 :
  Get kubeClient (alertKey alert) (cluster w) = (inr existing, k1) ->
  Update kubeClient (mergeInto alert existing) k1 = (e, k2) ->
  upsertAlert kubeClient alert w =
    (e, {| cluster := k2;
           trace := (trace w ++ [EvGet (alertKey alert);
                                 EvUpdate (mergeInto alert existing)]
                     ++ outcome e "alert updated")%list |}).
Proof.
  intros Hget Hupdate. unfold alertKey, mergeInto in *. run_go.
  rewrite Hget; simpl; rewrite Hupdate.
  destruct e; simpl; rewrite <- !app_assoc; reflexivity.
Qed.

Lemma upsertAlert_fetch_error err k1 :
  Get kubeClient (alertKey alert) (cluster w) = (inl err, k1) ->
  errors.IsNotFound err = false ->
  upsertAlert kubeClient alert w =
    (Some err, {| cluster := k1;
                  trace := (trace w ++ [EvGet (alertKey alert)])%list |}).
Proof.
  intros Hget Hnf. unfold alertKey in *. run_go.
  rewrite Hget; simpl; rewrite Hnf. reflexivity.
Qed.

End Upsert.

(** C1. [upsertAlert] first fetches the object with the namespace and name
    of the desired alert and branches on the answer.  Not found: it calls
    Create with the desired alert itself, returns what Create returns and,
    when that is success, logs "alert created".  Found: it calls Update
    with the fetched object carrying the desired labels and spec, returns
    what Update returns and, when that is success, logs "alert updated".  Any other fetch error: it returns that very error
    and the fetch is the only call it made. *)
Theorem upsertAlert_fetch_branches {K} (kubeClient : KubeClient K)
    (alert : Alert.t) (w : World K) :
  let fetch := Get kubeClient (alertKey alert) (cluster w) in
  let run := upsertAlert kubeClient alert w in
  (forall err, fetch.1 = inl err -> errors.IsNotFound err = true ->
     let created := Create kubeClient alert fetch.2 in
     run.1 = created.1 /\ cluster run.2 = created.2 /\
     events_since w run.2 =
       ([EvGet (alertKey alert); EvCreate alert]
        ++ match created.1 with
           | None => [EvLog Successf "alert created"]
           | Some _ => []
           end)%list)
  /\ (forall existing, fetch.1 = inr existing ->
     let obj := mergeInto alert existing in
     let updated := Update kubeClient obj fetch.2 in
     run.1 = updated.1 /\ cluster run.2 = updated.2 /\
     events_since w run.2 =
       ([EvGet (alertKey alert); EvUpdate obj]
        ++ match updated.1 with
           | None => [EvLog Successf "alert updated"]
           | Some _ => []
           end)%list)
  /\ (forall err, fetch.1 = inl err -> errors.IsNotFound err = false ->
     run.1 = Some err /\ cluster run.2 = fetch.2 /\
     events_since w run.2 = [EvGet (alertKey alert)]).
Proof.
  intros fetch run. subst fetch run.
  destruct (Get kubeClient (alertKey alert) (cluster w)) as [r k1] eqn:Hget.
  cbn [fst snd]. split; [| split].
  - intros err -> Hnf.
    destruct (Create kubeClient alert k1) as [e k2] eqn:Hcreate.
    rewrite (upsertAlert_not_found _ _ _ _ _ _ _ Hget Hnf Hcreate).
    cbn [fst snd cluster]. rewrite events_since_app. auto.
  - intros existing ->.
    destruct (Update kubeClient (mergeInto alert existing) k1) as [e k2] eqn:Hupdate.
    rewrite (upsertAlert_found _ _ _ _ _ _ _ Hget Hupdate).
    cbn [fst snd cluster]. rewrite events_since_app. auto.
  - intros err -> Hnf.
    rewrite (upsertAlert_fetch_error _ _ _ _ _ Hget Hnf).
    cbn [fst snd cluster]. rewrite events_since_app. auto.
Qed.

Lemma upsertAlert_fetch_branches_witness :
  let created := upsertAlert Fake.client Fake.desired (Fake.start Fake.empty) in
  let denied :=
    upsertAlert Fake.client Fake.desired (Fake.start (Fake.failing Fake.forbidden)) in
  let updated :=
    upsertAlert Fake.client Fake.desired (Fake.start (Fake.holding (Fake.stored []))) in
  (created.1 = None
   /\ trace created.2 = [EvGet (alertKey Fake.desired); EvCreate Fake.desired;
                         EvLog Successf "alert created"])
  /\ (denied.1 = Some Fake.forbidden
      /\ trace denied.2 = [EvGet (alertKey Fake.desired)])
  /\ (updated.1 = None
      /\ trace updated.2 = [EvGet (alertKey Fake.desired);
                            EvUpdate (mergeInto Fake.desired (Fake.stored []));
                            EvLog Successf "alert updated"]).
Proof.
  intros created denied updated.
  split; [| split].
  - destruct (upsertAlert_fetch_branches Fake.client Fake.desired
                (Fake.start Fake.empty)) as (Hcreate & _ & _).
    destruct (Hcreate (Fake.notFound "gotk-system") eq_refl eq_refl) as (Hr & _ & Hev).
    split; [exact Hr | exact Hev].
  - destruct (upsertAlert_fetch_branches Fake.client Fake.desired
                (Fake.start (Fake.failing Fake.forbidden))) as (_ & _ & Hother).
    destruct (Hother Fake.forbidden eq_refl eq_refl) as (Hr & _ & Hev).
    split; [exact Hr | exact Hev].
  - destruct (upsertAlert_fetch_branches Fake.client Fake.desired
                (Fake.start (Fake.holding (Fake.stored [])))) as (_ & Hupdate & _).
    destruct (Hupdate (Fake.stored []) eq_refl) as (Hr & _ & Hev).
    split; [exact Hr | exact Hev].
Defined.

(** C4. When the fetch finds an existing alert, [upsertAlert] issues exactly
    one Update and no Create; the object it passes has the labels and the
    spec of the desired alert, and its type information, name, namespace,
    annotations, resource version, UID, generation and status are those of
    the existing alert. *)
Theorem upsertAlert_update_object {K} (kubeClient : KubeClient K)
    (alert existing : Alert.t) (w : World K) :
  (Get kubeClient (alertKey alert) (cluster w)).1 = inr existing ->
  let events := events_since w (upsertAlert kubeClient alert w).2 in
  exists obj,
    List.filter is_update events = [EvUpdate obj]
    /\ List.filter is_create events = []
    /\ Alert.Labels obj = Alert.Labels alert
    /\ Alert.Spec obj = Alert.Spec alert
    /\ Alert.TypeMeta obj = Alert.TypeMeta existing
    /\ Alert.GetName obj = Alert.GetName existing
    /\ Alert.GetNamespace obj = Alert.GetNamespace existing
    /\ metav1.Annotations (Alert.ObjectMeta obj)
       = metav1.Annotations (Alert.ObjectMeta existing)
    /\ metav1.ResourceVersion (Alert.ObjectMeta obj)
       = metav1.ResourceVersion (Alert.ObjectMeta existing)
    /\ metav1.UID (Alert.ObjectMeta obj) = metav1.UID (Alert.ObjectMeta existing)
    /\ metav1.Generation (Alert.ObjectMeta obj)
       = metav1.Generation (Alert.ObjectMeta existing)
    /\ Alert.Status obj = Alert.Status existing.
Proof.
  intros Hfetch events. subst events.
  destruct (Get kubeClient (alertKey alert) (cluster w)) as [r k1] eqn:Hget.
  cbn [fst] in Hfetch. subst r.
  destruct (Update kubeClient (mergeInto alert existing) k1) as [e k2] eqn:Hupdate.
  rewrite (upsertAlert_found _ _ _ _ _ _ _ Hget Hupdate).
  cbn [snd]. rewrite events_since_app.
  exists (mergeInto alert existing).
  split; [| split].
  - destruct e; reflexivity.
  - destruct e; reflexivity.
  - repeat split.
Qed.

Lemma upsertAlert_update_object_witness :
  let updated :=
    upsertAlert Fake.client Fake.desired (Fake.start (Fake.holding (Fake.stored []))) in
  exists obj,
    List.filter is_update (trace updated.2) = [EvUpdate obj]
    /\ Alert.Spec obj = Alert.Spec Fake.desired
    /\ metav1.ResourceVersion (Alert.ObjectMeta obj) = "4711".
Proof.
  intros updated.
  destruct (upsertAlert_update_object Fake.client Fake.desired (Fake.stored [])
              (Fake.start (Fake.holding (Fake.stored []))) eq_refl)
    as (obj & Hone & _ & _ & Hspec & _ & _ & _ & _ & Hrv & _).
  exists obj. split; [exact Hone | split; [exact Hspec | exact Hrv]].
Defined.

(** *** [isAlertReady] *)

Lemma GetCondition_Some conditions conditionType c :
  meta.GetCondition conditions conditionType = Some c ->
  In c conditions /\ meta.Type_ c = conditionType.
Proof.
  induction conditions as [| c0 rest IH]; simpl; [discriminate |].
  destruct (String.eqb (meta.Type_ c0) conditionType) eqn:Hty.
  - intros [= <-]. apply String.eqb_eq in Hty. auto.
  - intros H. destruct (IH H). auto.
Qed.

Lemma GetCondition_None conditions conditionType :
  meta.GetCondition conditions conditionType = None ->
  forall c, In c conditions -> meta.Type_ c <> conditionType.
Proof.
  induction conditions as [| c0 rest IH]; simpl; [tauto |].
  destruct (String.eqb (meta.Type_ c0) conditionType) eqn:Hty; [discriminate |].
  intros H c [<- | Hin].
  - apply String.eqb_neq. exact Hty.
  - apply IH; assumption.
Qed.

Section PollStep.

Context {K : Type} (kubeClient : KubeClient K) (name namespace : string)
        (w : World K).

(** A poll step makes one call, the fetch. *)
Lemma isAlertReady_trace :
  events_since w (isAlertReady kubeClient name namespace w).2
  = [EvGet (pollKey name namespace)].
Proof.
  unfold pollKey. run_go.
  destruct (Get kubeClient _ (cluster w)) as [[err | alert] k1]; simpl.
  - apply events_since_app.
  - destruct (meta.GetCondition _ _) as [c |]; simpl;
      [destruct (String.eqb _ corev1.ConditionTrue); simpl;
         [| destruct (String.eqb _ corev1.ConditionFalse); simpl] |];
      apply events_since_app.
Qed.

Lemma isAlertReady_fetch_error err k1 :
  Get kubeClient (pollKey name namespace) (cluster w) = (inl err, k1) ->
  (isAlertReady kubeClient name namespace w).1 = (false, Some err).
Proof. intros Hget. unfold pollKey in *. run_go. rewrite Hget. reflexivity. Qed.

Lemma isAlertReady_no_condition alert k1 :
  Get kubeClient (pollKey name namespace) (cluster w) = (inr alert, k1) ->
  meta.GetCondition (Alert.Status alert) meta.ReadyCondition = None ->
  (isAlertReady kubeClient name namespace w).1 = (false, None).
Proof.
  intros Hget Hc. unfold pollKey in *. run_go.
  rewrite Hget; simpl. rewrite Hc. reflexivity.
Qed.

Lemma isAlertReady_condition alert k1 c :
  Get kubeClient (pollKey name namespace) (cluster w) = (inr alert, k1) ->
  meta.GetCondition (Alert.Status alert) meta.ReadyCondition = Some c ->
  (isAlertReady kubeClient name namespace w).1 =
    if String.eqb (meta.Status c) corev1.ConditionTrue then (true, None)
    else if String.eqb (meta.Status c) corev1.ConditionFalse
         then (false, Some (Errorf (meta.Message c)))
         else (false, None).
Proof.
  intros Hget Hc. unfold pollKey in *. run_go.
  rewrite Hget; simpl. rewrite Hc.
  destruct (String.eqb _ corev1.ConditionTrue); [reflexivity |].
  destruct (String.eqb _ corev1.ConditionFalse); reflexivity.
Qed.

End PollStep.

(** C2. One poll step of [isAlertReady] returns success, [(true, nil)], if
    and only if the fetch succeeded and the Ready condition of the fetched
    alert has status True; when the fetched alert has no Ready condition, or
    one whose status is neither True nor False (Unknown, say), the step
    returns [(false, nil)]: keep polling, no error. *)
Theorem isAlertReady_success_iff {K} (kubeClient : KubeClient K)
    (name namespace : string) (w : World K) :
  let fetch := Get kubeClient (pollKey name namespace) (cluster w) in
  let step := (isAlertReady kubeClient name namespace w).1 in
  (step = (true, None) <->
   exists alert c,
     fetch.1 = inr alert
     /\ meta.GetCondition (Alert.Status alert) meta.ReadyCondition = Some c
     /\ meta.Status c = corev1.ConditionTrue)
  /\ (forall alert,
        fetch.1 = inr alert ->
        (meta.GetCondition (Alert.Status alert) meta.ReadyCondition = None
         \/ exists c,
              meta.GetCondition (Alert.Status alert) meta.ReadyCondition = Some c
              /\ meta.Status c <> corev1.ConditionTrue
              /\ meta.Status c <> corev1.ConditionFalse) ->
        step = (false, None)).
Proof.
  intros fetch step. subst fetch step.
  destruct (Get kubeClient (pollKey name namespace) (cluster w)) as [r k1] eqn:Hget.
  cbn [fst]. split.
  - destruct r as [err | alert].
    + rewrite (isAlertReady_fetch_error _ _ _ _ _ _ Hget).
      split; [discriminate | intros (a & c & [=] & _)].
    + destruct (meta.GetCondition (Alert.Status alert) meta.ReadyCondition)
        as [c |] eqn:Hc.
      * rewrite (isAlertReady_condition _ _ _ _ _ _ _ Hget Hc).
        destruct (String.eqb (meta.Status c) corev1.ConditionTrue) eqn:Ht.
        -- apply String.eqb_eq in Ht. split; [| reflexivity].
           intros _. exists alert, c. auto.
        -- apply String.eqb_neq in Ht. split.
           ++ destruct (String.eqb _ corev1.ConditionFalse); discriminate.
           ++ intros (a & c' & [= <-] & Hc' & Hs). congruence.
      * rewrite (isAlertReady_no_condition _ _ _ _ _ _ Hget Hc).
        split; [discriminate | intros (a & c & [= <-] & Hc' & _); congruence].
  - intros alert -> [Hnone | (c & Hc & Ht & Hf)].
    + apply (isAlertReady_no_condition _ _ _ _ _ _ Hget Hnone).
    + rewrite (isAlertReady_condition _ _ _ _ _ _ _ Hget Hc).
      apply String.eqb_neq in Ht, Hf. rewrite Ht, Hf. reflexivity.
Qed.

Lemma isAlertReady_success_iff_witness :
  (isAlertReady Fake.client "gotk-system" "gotk-system"
     (Fake.start (Fake.holding (Fake.stored [Fake.condition "True" "Initialized"])))).1
  = (true, None)
  /\ (isAlertReady Fake.client "gotk-system" "gotk-system"
        (Fake.start (Fake.holding (Fake.stored [Fake.condition "Unknown" ""])))).1
     = (false, None)
  /\ (isAlertReady Fake.client "gotk-system" "gotk-system"
        (Fake.start (Fake.holding (Fake.stored [])))).1
     = (false, None).
Proof.
  split; [| split].
  - apply (isAlertReady_success_iff Fake.client "gotk-system" "gotk-system").
    exists (Fake.stored [Fake.condition "True" "Initialized"]),
           (Fake.condition "True" "Initialized").
    split; [reflexivity | split; reflexivity].
  - apply (proj2 (isAlertReady_success_iff Fake.client "gotk-system" "gotk-system"
                    (Fake.start (Fake.holding (Fake.stored [Fake.condition "Unknown" ""]))))
             (Fake.stored [Fake.condition "Unknown" ""]) eq_refl).
    right. exists (Fake.condition "Unknown" "").
    split; [reflexivity | split; discriminate].
  - apply (proj2 (isAlertReady_success_iff Fake.client "gotk-system" "gotk-system"
                    (Fake.start (Fake.holding (Fake.stored []))))
             (Fake.stored []) eq_refl).
    left. reflexivity.
Defined.

(** *** The format loop has rounds to spare

    No stage of a verb makes the format longer, so a loop that is given one
    round per byte never stops for want of rounds. *)

Lemma skip_flags_length (s : string) :
  String.length (Fmt.skip_flags s) <= String.length s.
Proof.
  induction s as [| c s IH]; simpl; [lia |].
  destruct (Fmt.is_flag c); simpl; lia.
Qed.

Lemma drop_bytes_length (n : nat) (s : string) :
  String.length (Fmt.drop_bytes n s) <= String.length s.
Proof.
  revert s. induction n as [| n IH]; intros [| c s]; simpl; try lia.
  specialize (IH s). lia.
Qed.

Lemma argNumber_length (s : string) :
  String.length (Fmt.argNumber s).1.1 <= String.length s.
Proof.
  unfold Fmt.argNumber. destruct s as [| c s]; [simpl; lia |].
  destruct (Ascii.eqb c "["); [| simpl; lia].
  destruct (Fmt.parseArgNumber (String c s)) as [wid ok]. cbn [fst].
  apply drop_bytes_length.
Qed.

Lemma parsenum_from_length (num : Z) (isnum : bool) (s : string) :
  String.length (Fmt.parsenum_from num isnum s).2 <= String.length s.
Proof.
  revert num isnum. induction s as [| c s IH]; intros num isnum; simpl; [lia |].
  destruct (Fmt.is_digit c); simpl; [| lia].
  destruct (Fmt.tooLarge num); simpl; [lia |].
  specialize (IH (num * 10 + (Z.of_N (Fmt.byte_of c) - 48))%Z true). lia.
Qed.

Lemma after_byte_length (c : ascii) (s s' : string) :
  Fmt.after_byte c s = Some s' -> String.length s' < String.length s.
Proof.
  destruct s as [| c' t]; simpl; [discriminate |].
  destruct (Ascii.eqb c' c); [intros [= <-]; lia | discriminate].
Qed.

Lemma width_length (s : string) (afterIndex goodArgNum : bool) :
  String.length (Fmt.width s afterIndex goodArgNum).1.1.2 <= String.length s.
Proof.
  unfold Fmt.width. destruct (Fmt.after_byte "*" s) as [s' |] eqn:Hstar.
  - apply after_byte_length in Hstar. simpl. lia.
  - pose proof (parsenum_from_length 0 false s) as Hnum.
    unfold Fmt.parsenum. destruct (Fmt.parsenum_from 0 false s) as [wp s'].
    exact Hnum.
Qed.

Lemma precision_length (s : string) (afterIndex goodArgNum : bool) :
  String.length (Fmt.precision s afterIndex goodArgNum).1.1.2 <= String.length s.
Proof.
  unfold Fmt.precision. destruct (Fmt.after_byte "." s) as [s' |] eqn:Hdot;
    [| simpl; lia].
  apply after_byte_length in Hdot.
  pose proof (argNumber_length s') as Harg.
  destruct (Fmt.argNumber s') as [[s1 ai] br]. cbn [fst] in Harg.
  destruct (Fmt.after_byte "*" s1) as [s2 |] eqn:Hstar.
  - apply after_byte_length in Hstar. simpl. lia.
  - pose proof (parsenum_from_length 0 false s1) as Hnum.
    unfold Fmt.parsenum. simpl. lia.
Qed.

Lemma decode_verb_length (s : string) :
  String.length (Fmt.decode_verb s).2 <= String.length s.
Proof.
  unfold Fmt.decode_verb. destruct s as [| c0 s1]; [simpl; lia |].
  destruct (Fmt.byte_of c0 <? 128)%N; [simpl; lia |].
  destruct (Fmt.first_byte c0) as [[sz lo] hi].
  destruct (sz =? 0)%N; [simpl; lia |].
  destruct (Nat.ltb _ _); [simpl; lia |].
  destruct s1 as [| c1 s2]; [simpl; lia |].
  destruct (negb (Fmt.in_range lo hi c1)); [simpl; lia |].
  destruct (sz <=? 2)%N; [simpl; lia |].
  destruct s2 as [| c2 s3]; [simpl; lia |].
  destruct (negb (Fmt.in_range 128 191 c2)); [simpl; lia |].
  destruct (sz <=? 3)%N; [simpl; lia |].
  destruct s3 as [| c3 s4]; [simpl; lia |].
  destruct (negb (Fmt.in_range 128 191 c3)); simpl; lia.
Qed.

Lemma verb_length (s out rest : string) :
  Fmt.verb s = (out, Some rest) -> String.length rest <= String.length s.
Proof.
  unfold Fmt.verb.
  pose proof (skip_flags_length s) as H0.
  pose proof (argNumber_length (Fmt.skip_flags s)) as H1.
  destruct (Fmt.argNumber (Fmt.skip_flags s)) as [[s1 ai1] br1]. cbn [fst] in H1.
  pose proof (width_length s1 ai1 (negb br1)) as H2.
  destruct (Fmt.width s1 ai1 (negb br1)) as [[[out1 s2] ai2] good2].
  cbn [fst snd] in H2.
  pose proof (precision_length s2 ai2 good2) as H3.
  destruct (Fmt.precision s2 ai2 good2) as [[[out2 s3] ai3] good3].
  cbn [fst snd] in H3.
  assert (H4 : String.length
                 (if ai3 then (s3, good3)
                  else let '(s', _, bracket) := Fmt.argNumber s3 in
                       (s', good3 && negb bracket)).1
               <= String.length s3).
  { destruct ai3; [simpl; lia |].
    pose proof (argNumber_length s3) as Harg.
    destruct (Fmt.argNumber s3) as [[s' f] b]. exact Harg. }
  destruct (if ai3 then (s3, good3) else _) as [s4 good4]. cbn [fst] in H4.
  destruct s4 as [| c s5]; [discriminate |].
  pose proof (decode_verb_length (String c s5)) as H5.
  destruct (Fmt.decode_verb (String c s5)) as [v rest']. cbn [snd] in H5.
  intros [= _ <-]. lia.
Qed.

(** With at least one round per byte the loop gives the same text whatever
    the number of rounds. *)
Lemma doPrintf_rounds (n m : nat) (format : string) :
  String.length format <= n -> String.length format <= m ->
  Fmt.doPrintf n format = Fmt.doPrintf m format.
Proof.
  revert m format. induction n as [| n IH]; intros m format Hn Hm.
  - destruct format; [destruct m; reflexivity | simpl in Hn; lia].
  - destruct m as [| m]; [destruct format; [reflexivity | simpl in Hm; lia] |].
    destruct format as [| c rest]; [reflexivity |].
    simpl in Hn, Hm. simpl.
    destruct (Ascii.eqb c Fmt.percentSign).
    + destruct (Fmt.verb rest) as [out [rest' |]] eqn:Hverb; [| reflexivity].
      apply verb_length in Hverb.
      rewrite (IH m rest'); [reflexivity | lia | lia].
    + rewrite (IH m rest); [reflexivity | lia | lia].
Qed.

(** A format without a percent sign is printed as it is; the empty format
    gives the empty text. *)
Lemma doPrintf_no_percent (s : string) :
  Fmt.has_percent s = false -> Fmt.doPrintf (String.length s) s = s.
Proof.
  induction s as [| c s IH]; simpl; [reflexivity |].
  intros H. apply orb_false_iff in H as [Hc Hs].
  rewrite Hc, (IH Hs). reflexivity.
Qed.

Lemma Errorf_no_percent (s : string) :
  Fmt.has_percent s = false -> Error (Errorf s) = s.
Proof. intros H. simpl. unfold Fmt.Sprintf. apply doPrintf_no_percent, H. Qed.

(** On a Ready condition with status False the step ends the wait at once:
    no [done], the error [fmt.Errorf(c.Message)], after the one fetch. *)
Lemma isAlertReady_false {K} (kubeClient : KubeClient K) (name namespace : string)
    (w : World K) (alert : Alert.t) (c : meta.Condition) :
  (Get kubeClient (pollKey name namespace) (cluster w)).1 = inr alert ->
  meta.GetCondition (Alert.Status alert) meta.ReadyCondition = Some c ->
  meta.Status c = corev1.ConditionFalse ->
  (isAlertReady kubeClient name namespace w).1
  = (false, Some (Errorf (meta.Message c))).
Proof.
  intros Hfetch Hc Hs.
  destruct (Get kubeClient (pollKey name namespace) (cluster w)) as [r k1] eqn:Hget.
  cbn [fst] in Hfetch. subst r.
  rewrite (isAlertReady_condition _ _ _ _ _ _ _ Hget Hc), Hs. reflexivity.
Qed.

(** With a message free of percent signs, the empty one included, the text
    of that error is the message itself. *)
Lemma isAlertReady_false_plain_message {K} (kubeClient : KubeClient K)
    (name namespace : string) (w : World K) (alert : Alert.t) (c : meta.Condition) :
  (Get kubeClient (pollKey name namespace) (cluster w)).1 = inr alert ->
  meta.GetCondition (Alert.Status alert) meta.ReadyCondition = Some c ->
  meta.Status c = corev1.ConditionFalse ->
  Fmt.has_percent (meta.Message c) = false ->
  exists err,
    (isAlertReady kubeClient name namespace w).1 = (false, Some err)
    /\ Error err = meta.Message c.
Proof.
  intros Hfetch Hc Hs Hp. eexists. split.
  - eapply isAlertReady_false; eassumption.
  - apply Errorf_no_percent, Hp.
Qed.

(** An error of the condition ends [wait.PollImmediate] in the same step,
    whatever ticks are left: nothing is fetched after it. *)
Lemma poll_fail_fast {K} (ticks : nat) (condition : M K (bool * option error))
    (w w' : World K) (done : bool) (err : error) :
  condition w = ((done, Some err), w') ->
  poll ticks condition w = (Some err, w').
Proof.
  intros Hc. destruct ticks; simpl; unfold bind; rewrite Hc;
    destruct done; reflexivity.
Qed.

(** C3, at an input where the code departs from it.  The server reports
    Ready False with the message [quota at 100%]; the step fails at once,
    but the text of its error is [quota at 100%!(NOVERB)], not the message:
    the message went through [fmt.Errorf] as a format. *)
Theorem isAlertReady_false_message_is_a_format :
  let c := Fake.condition "False" "quota at 100%" in
  let w := Fake.start (Fake.holding (Fake.stored [c])) in
  exists err,
    (isAlertReady Fake.client "gotk-system" "gotk-system" w).1 = (false, Some err)
    /\ Error err = "quota at 100%!(NOVERB)"
    /\ Error err <> meta.Message c.
Proof.
  intros c w. exists (Errorf (meta.Message c)).
  split; [reflexivity | split; [reflexivity | discriminate]].
Qed.

(** *** [getReceiverCmdRun] *)

Lemma receiverRows_from (items : list Receiver.t) (rows : list (list string)) :
  fold_left (fun rows receiver => (rows ++ [receiverRow receiver])%list) items rows
  = (rows ++ List.map receiverRow items)%list.
Proof.
  revert rows. induction items as [| r items IH]; intros rows; simpl.
  - symmetry. apply app_nil_r.
  - rewrite IH, <- app_assoc. reflexivity.
Qed.

Lemma receiverRows_map (items : list Receiver.t) :
  receiverRows items = List.map receiverRow items.
Proof. unfold receiverRows. apply receiverRows_from. Qed.

Section GetReceivers.

Context {K : Type} (kubeClientFor : string -> error + KubeClient K).
Context (fl : Flags) (args : list string) (w : World K).

Lemma getReceiverCmdRun_listed kubeClient items k1 :
  kubeClientFor (kubeconfig fl) = inr kubeClient ->
  List kubeClient (listScope fl) (cluster w) = (inr items, k1) ->
  getReceiverCmdRun kubeClientFor fl args w =
    (None,
     {| cluster := k1;
        trace :=
          (trace w
           ++ [EvKubeClient (kubeconfig fl); EvList (listScope fl);
               match items with
               | [] => EvLog Failuref (nothingFound fl)
               | _ :: _ => EvPrintTable (receiverHeader fl) (receiverRows items)
               end])%list |}).
Proof.
  intros Hclient Hlist. unfold getReceiverCmdRun, listScope, nothingFound in *.
  run_go. rewrite Hclient; simpl.
  destruct (allNamespaces fl); simpl in *; rewrite Hlist; simpl;
    destruct items; simpl; rewrite <- !app_assoc; reflexivity.
Qed.

(** C9. When the list call succeeds with no item, the command logs that
    no receivers were found, prints no table and returns nil. *)
Theorem getReceiverCmdRun_nothing_found kubeClient :
  kubeClientFor (kubeconfig fl) = inr kubeClient ->
  (List kubeClient (listScope fl) (cluster w)).1 = inr [] ->
  let run := getReceiverCmdRun kubeClientFor fl args w in
  run.1 = None
  /\ events_since w run.2 =
       [EvKubeClient (kubeconfig fl); EvList (listScope fl);
        EvLog Failuref ("no receivers found in " ++ namespace fl ++ " namespace")].
Proof.
  intros Hclient Hitems run. subst run.
  destruct (List kubeClient (listScope fl) (cluster w)) as [r k1] eqn:Hlist.
  cbn [fst] in Hitems. subst r.
  rewrite (getReceiverCmdRun_listed _ _ _ Hclient Hlist).
  cbn [fst snd]. rewrite events_since_app. auto.
Qed.

(** C6. When the list call succeeds with at least one item, the command
    prints one table and returns nil; the table has one row per item, in
    the order of the items; the row of an item with a Ready condition is
    its name, its suspension flag, the status and the message of that
    condition; the row of an item without one is its name, its suspension
    flag, "False" and "waiting to be reconciled". *)
Theorem getReceiverCmdRun_rows kubeClient items :
  kubeClientFor (kubeconfig fl) = inr kubeClient ->
  (List kubeClient (listScope fl) (cluster w)).1 = inr items ->
  items <> [] ->
  let run := getReceiverCmdRun kubeClientFor fl args w in
  exists rows,
    run.1 = None
    /\ events_since w run.2 =
         [EvKubeClient (kubeconfig fl); EvList (listScope fl);
          EvPrintTable (receiverHeader fl) rows]
    /\ length rows = length items
    /\ forall (i : nat) (receiver : Receiver.t),
         items !! i = Some receiver ->
         exists row,
           rows !! i = Some row
           /\ (forall c,
                 meta.GetCondition (Receiver.Status receiver) meta.ReadyCondition
                 = Some c ->
                 row = [Receiver.GetName receiver;
                        Title (FormatBool (ReceiverSpec.Suspend (Receiver.Spec receiver)));
                        meta.Status c; meta.Message c])
           /\ (meta.GetCondition (Receiver.Status receiver) meta.ReadyCondition
               = None ->
               row = [Receiver.GetName receiver;
                      Title (FormatBool (ReceiverSpec.Suspend (Receiver.Spec receiver)));
                      "False"; "waiting to be reconciled"]).
Proof.
  intros Hclient Hitems Hne run. subst run.
  destruct (List kubeClient (listScope fl) (cluster w)) as [r k1] eqn:Hlist.
  cbn [fst] in Hitems. subst r.
  rewrite (getReceiverCmdRun_listed _ _ _ Hclient Hlist).
  cbn [fst snd]. rewrite events_since_app.
  exists (receiverRows items). split; [reflexivity |]. split.
  - destruct items; [contradiction | reflexivity].
  - rewrite receiverRows_map. split; [apply length_map |].
    intros i receiver Hi. exists (receiverRow receiver). split.
    + change (List.map receiverRow items) with (receiverRow <$> items).
      rewrite list_lookup_fmap, Hi. reflexivity.
    + unfold receiverRow. split.
      * intros c ->. reflexivity.
      * intros ->. reflexivity.
Qed.

End GetReceivers.

Lemma getReceiverCmdRun_nothing_found_witness :
  let run :=
    getReceiverCmdRun Fake.kubeClientFor Fake.flags [] (Fake.start Fake.empty) in
  run.1 = None
  /\ trace run.2 =
       [EvKubeClient "~/.kube/config"; EvList [InNamespace "gotk-system"];
        EvLog Failuref "no receivers found in gotk-system namespace"].
Proof.
  exact (getReceiverCmdRun_nothing_found Fake.kubeClientFor Fake.flags []
           (Fake.start Fake.empty) Fake.client eq_refl eq_refl).
Defined.

Lemma getReceiverCmdRun_rows_witness :
  let run :=
    getReceiverCmdRun Fake.kubeClientFor Fake.flags []
      (Fake.start (Fake.withReceivers twoReceivers)) in
  exists rows,
    run.1 = None
    /\ trace run.2 =
         [EvKubeClient "~/.kube/config"; EvList [InNamespace "gotk-system"];
          EvPrintTable ["Name"; "Suspended"; "Ready"; "Message"] rows]
    /\ rows !! 0%nat = Some ["github-hook"; "False"; "True"; "Receiver initialised"]
    /\ rows !! 1%nat = Some ["harbor-hook"; "True"; "False"; "waiting to be reconciled"].
Proof.
  intros run.
  assert (Hne : twoReceivers <> []) by discriminate.
  destruct (getReceiverCmdRun_rows Fake.kubeClientFor Fake.flags []
              (Fake.start (Fake.withReceivers twoReceivers)) Fake.client
              twoReceivers eq_refl eq_refl Hne)
    as (rows & Hr & Hev & _ & Hrows).
  exists rows. split; [exact Hr | split; [exact Hev | split]].
  - destruct (Hrows 0%nat _ eq_refl) as (row & -> & Hready & _).
    rewrite (Hready _ eq_refl). reflexivity.
  - destruct (Hrows 1%nat _ eq_refl) as (row & -> & _ & Hwaiting).
    rewrite (Hwaiting eq_refl). reflexivity.
Defined.

(** Whatever the flags, a row has four cells and starts with the name. *)
Lemma receiverRow_shape (receiver : Receiver.t) :
  length (receiverRow receiver) = 4%nat
  /\ receiverRow receiver !! 0%nat = Some (Receiver.GetName receiver).
Proof. unfold receiverRow. destruct (meta.GetCondition _ _); auto. Qed.

(** C5, at an input where the code departs from it.  With
    [--all-namespaces] and one receiver in namespace [team-a], the header
    gains the Namespace column, but the row is printed without the
    namespace: four cells under five headings, the name first. *)
Theorem getReceiverCmdRun_all_namespaces_row :
  let fl :=
    {| aProviderRef := ""; aEventSeverity := ""; aEventSources := []; labels := [];
       export := false; namespace := "gotk-system"; allNamespaces := true;
       kubeconfig := "~/.kube/config"; timeout := 300; pollInterval := 2 |} in
  let receiver :=
    Fake.receiver "team-a" "github-hook" false
      [Fake.condition "True" "Receiver initialised"] in
  let run :=
    getReceiverCmdRun Fake.kubeClientFor fl []
      (Fake.start (Fake.withReceivers [receiver])) in
  run.1 = None
  /\ trace run.2 =
       [EvKubeClient "~/.kube/config"; EvList [];
        EvPrintTable ["Namespace"; "Name"; "Suspended"; "Ready"; "Message"]
          [["github-hook"; "False"; "True"; "Receiver initialised"]]]
  /\ Receiver.GetNamespace receiver = "team-a".
Proof. intros fl receiver run. repeat split. Qed.

(** *** A rule per monad operation: what a computation adds to the trace *)

Section Appends.

Context {K : Type} (P : Event -> Prop).

Lemma appends_ret {A} (a : A) : appends (K := K) P (ret a).
Proof. intros w. exists []. simpl. rewrite app_nil_r. auto. Qed.

Lemma appends_bind {A B} (m : M K A) (f : A -> M K B) :
  appends P m -> (forall a, appends P (f a)) -> appends P (bind m f).
Proof.
  intros Hm Hf w. unfold bind.
  destruct (Hm w) as (evs1 & Ht1 & HP1).
  destruct (m w) as [a w1]. simpl in Ht1.
  destruct (Hf a w1) as (evs2 & Ht2 & HP2).
  exists (evs1 ++ evs2)%list. split.
  - rewrite Ht2, Ht1, app_assoc. reflexivity.
  - apply Forall_app; auto.
Qed.

Lemma appends_emit (ev : Event) : P ev -> appends (K := K) P (emit ev).
Proof. intros HP w. exists [ev]. simpl. auto. Qed.

Lemma appends_call {A} (ev : Event) (f : K -> A * K) : P ev -> appends P (call ev f).
Proof.
  intros HP w. exists [ev]. unfold call.
  destruct (f (cluster w)) as [a k1]. simpl. auto.
Qed.

Lemma appends_events_since {A} (m : M K A) (w : World K) :
  appends P m -> Forall P (events_since w (m w).2).
Proof.
  intros Hm. destruct (Hm w) as (evs & Ht & HP).
  unfold events_since. rewrite Ht, drop_app_length. exact HP.
Qed.

End Appends.

(** ** [createAlertCmdRun] *)

Section CreateAlert.

Context {K : Type}.
Variable parseObjectKindName : string -> string * string.
Variable parseLabels : list string -> error + gmap string string.
Variable kubeClientFor : string -> error + KubeClient K.
Variable exportResult : Alert.t -> option error.
Variable pollerTicks : Z -> Z -> nat.

Local Abbreviation createAlert :=
  (createAlertCmdRun parseObjectKindName parseLabels kubeClientFor exportResult
     pollerTicks).
Local Abbreviation eventSourcesOf := (parseEventSources parseObjectKindName).

(** The loop stops at the first flag whose kind is empty. *)
Lemma parseEventSources_malformed sources :
  (exists eventSource,
     In eventSource sources /\ (parseObjectKindName eventSource).1 = "") ->
  forall acc, exists eventSource,
    In eventSource sources
    /\ eventSourcesOf sources acc = inl (invalidEventSource eventSource).
Proof.
  induction sources as [| s rest IH]; intros (es & Hin & Hkind) acc.
  - destruct Hin.
  - simpl. destruct (parseObjectKindName s) as [kind name] eqn:Hs.
    destruct (String.eqb kind "") eqn:Hk.
    + exists s. split; [left |]; reflexivity.
    + destruct Hin as [-> | Hin].
      * rewrite Hs in Hkind. simpl in Hkind. subst kind. discriminate.
      * destruct (IH (ex_intro _ es (conj Hin Hkind))
                    (acc ++ [{| RefKind := kind; RefName := name;
                                RefNamespace := "" |}])%list)
          as (es' & Hin' & Heq).
        exists es'. split; [right; exact Hin' | exact Heq].
Qed.

(** C7. When the name argument is missing, or the provider reference is
    empty, or some event source parses to an empty kind, or there is no
    event source, [createAlertCmdRun] returns one of its validation errors
    and has done nothing at all by then: the world it returns is the one
    it was given, with no client constructed and no Get, Create or Update
    in the trace. *)
Theorem createAlertCmdRun_validation (fl : Flags) (args : list string)
    (w : World K) :
  args = []
  \/ aProviderRef fl = ""
  \/ (exists eventSource,
        In eventSource (aEventSources fl)
        /\ (parseObjectKindName eventSource).1 = "")
  \/ aEventSources fl = [] ->
  exists err,
    createAlert fl args w = (Some err, w)
    /\ validationError fl err
    /\ List.filter is_network (events_since w (createAlert fl args w).2) = [].
Proof.
  intros Hbad.
  assert (Hrun : exists err,
             createAlert fl args w = (Some err, w) /\ validationError fl err).
  { unfold createAlertCmdRun, validationError.
    destruct args as [| name rest].
    { eexists. split; [reflexivity | left; reflexivity]. }
    destruct (String.eqb (aProviderRef fl) "") eqn:Hp.
    { eexists. split; [reflexivity | right; left; reflexivity]. }
    destruct Hbad as [Hargs | [Hprov | [Hmal | Hnone]]].
    - discriminate.
    - rewrite Hprov in Hp. discriminate.
    - destruct (parseEventSources_malformed _ Hmal []) as (es & Hin & ->).
      eexists. split; [reflexivity |].
      right; right; left. exists es. auto.
    - rewrite Hnone. simpl.
      eexists. split; [reflexivity | right; right; right; reflexivity]. }
  destruct Hrun as (err & Hrun & Hval).
  exists err. rewrite Hrun. split; [reflexivity | split; [exact Hval |]].
  unfold events_since. simpl. rewrite drop_all. reflexivity.
Qed.

(** C8. With [--export] and arguments and flags that pass validation,
    [createAlertCmdRun] hands the desired alert to [exportAlert] and
    returns its result; nothing else happens: the server state is
    untouched, and the trace gains the export and neither a client
    construction, nor a Get, Create or Update, nor a logger line. *)
Theorem createAlertCmdRun_export (fl : Flags) (name : string) (rest : list string)
    (w : World K) (eventSources : list CrossNamespaceObjectReference)
    (sourceLabels : gmap string string) :
  export fl = true ->
  aProviderRef fl <> "" ->
  eventSourcesOf (aEventSources fl) [] = inr eventSources ->
  eventSources <> [] ->
  parseLabels (labels fl) = inr sourceLabels ->
  let alert := desiredAlert fl name sourceLabels eventSources in
  let run := createAlert fl (name :: rest) w in
  run.1 = exportResult alert
  /\ cluster run.2 = cluster w
  /\ events_since w run.2 = [EvExport alert]
  /\ List.filter is_network (events_since w run.2) = [].
Proof.
  intros Hexport Hprov Hsources Hne Hlabels alert run. subst alert run.
  unfold createAlertCmdRun.
  apply String.eqb_neq in Hprov. rewrite Hprov, Hsources.
  destruct eventSources as [| ref refs]; [contradiction |].
  cbn [length Nat.eqb]. rewrite Hlabels, Hexport.
  run_go. rewrite events_since_app. auto.
Qed.

Lemma upsertAlert_unsuspended (kubeClient : KubeClient K) (alert : Alert.t) :
  AlertSpec.Suspend (Alert.Spec alert) = false ->
  appends unsuspended (upsertAlert kubeClient alert).
Proof.
  intros Hs. unfold upsertAlert.
  apply appends_bind; [apply appends_call; exact I |].
  intros [err | existing].
  - destruct (errors.IsNotFound err); [| apply appends_ret].
    apply appends_bind; [apply appends_call; exact Hs |].
    intros [cerr |]; [apply appends_ret |].
    apply appends_bind; [apply appends_emit; exact I | intros; apply appends_ret].
  - apply appends_bind; [apply appends_call; exact Hs |].
    intros [uerr |]; [apply appends_ret |].
    apply appends_bind; [apply appends_emit; exact I | intros; apply appends_ret].
Qed.

Lemma isAlertReady_unsuspended (kubeClient : KubeClient K) (name namespace : string) :
  appends unsuspended (isAlertReady kubeClient name namespace).
Proof.
  unfold isAlertReady.
  apply appends_bind; [apply appends_call; exact I |].
  intros [err | alert]; [apply appends_ret |].
  destruct (meta.GetCondition _ _) as [c |]; [| apply appends_ret].
  destruct (String.eqb _ corev1.ConditionTrue); [apply appends_ret |].
  destruct (String.eqb _ corev1.ConditionFalse); apply appends_ret.
Qed.

(** Polling adds what its condition adds, however long it lasts. *)
Lemma poll_appends (P : Event -> Prop) (condition : M K (bool * option error)) :
  appends P condition -> forall ticks, appends P (poll ticks condition).
Proof.
  intros Hc ticks. induction ticks as [| ticks IH]; simpl;
    (apply appends_bind; [exact Hc |]);
    intros [[|] [err |]]; auto using @appends_ret.
Qed.

Lemma createAlertCmdRun_unsuspended (fl : Flags) (args : list string) :
  appends unsuspended (createAlert fl args).
Proof.
  unfold createAlertCmdRun.
  destruct args as [| name rest]; [apply appends_ret |].
  destruct (String.eqb (aProviderRef fl) ""); [apply appends_ret |].
  destruct (eventSourcesOf (aEventSources fl) []) as [err | eventSources];
    [apply appends_ret |].
  destruct (Nat.eqb (length eventSources) 0); [apply appends_ret |].
  destruct (parseLabels (labels fl)) as [err | sourceLabels]; [apply appends_ret |].
  apply appends_bind.
  { destruct (export fl); [apply appends_ret | apply appends_emit; exact I]. }
  intros _. destruct (export fl).
  { unfold exportAlert. apply appends_bind; [apply appends_emit; reflexivity |].
    intros; apply appends_ret. }
  apply appends_bind.
  { unfold utils_kubeClient.
    apply appends_bind; [apply appends_emit; exact I | intros; apply appends_ret]. }
  intros [err | kubeClient]; [apply appends_ret |].
  apply appends_bind; [apply appends_emit; exact I |]. intros _.
  apply appends_bind; [apply upsertAlert_unsuspended; reflexivity |].
  intros [err |]; [apply appends_ret |].
  apply appends_bind; [apply appends_emit; exact I |]. intros _.
  apply appends_bind.
  { apply poll_appends, isAlertReady_unsuspended. }
  intros [err |]; [apply appends_ret |].
  apply appends_bind; [apply appends_emit; exact I | intros; apply appends_ret].
Qed.

(** C10. The alert [createAlertCmdRun] builds has [Spec.Suspend] false
    whatever the name, the flags and the labels, and so has every alert a
    run hands to [exportAlert], to Create or to Update: no argument or
    flag of the command makes a suspended alert. *)
Theorem createAlertCmdRun_never_suspended (fl : Flags) (args : list string)
    (w : World K) :
  (forall name sourceLabels eventSources,
     AlertSpec.Suspend (Alert.Spec (desiredAlert fl name sourceLabels eventSources))
     = false)
  /\ forall obj,
       In (EvExport obj) (events_since w (createAlert fl args w).2)
       \/ In (EvCreate obj) (events_since w (createAlert fl args w).2)
       \/ In (EvUpdate obj) (events_since w (createAlert fl args w).2) ->
       AlertSpec.Suspend (Alert.Spec obj) = false.
Proof.
  split; [reflexivity |].
  pose proof (appends_events_since unsuspended (createAlert fl args) w
                (createAlertCmdRun_unsuspended fl args)) as Hall.
  rewrite List.Forall_forall in Hall.
  intros obj [Hin | [Hin | Hin]]; exact (Hall _ Hin).
Qed.

End CreateAlert.

Lemma createAlertCmdRun_validation_witness :
  (exists err,
     createAlertFake Fake.flags [] (Fake.start Fake.empty)
     = (Some err, Fake.start Fake.empty)
     /\ validationError Fake.flags err)
  /\ (exists err,
        createAlertFake (flagsWith ["Kustomization/gotk-system"; "invalid"] false)
          ["gotk-system"] (Fake.start Fake.empty)
        = (Some err, Fake.start Fake.empty)
        /\ validationError (flagsWith ["Kustomization/gotk-system"; "invalid"] false) err).
Proof.
  split.
  - destruct (createAlertCmdRun_validation Fake.parseObjectKindName Fake.parseLabels
                Fake.kubeClientFor Fake.exportResult Fake.pollerTicks Fake.flags []
                (Fake.start Fake.empty) (or_introl eq_refl))
      as (err & Hrun & Hval & _).
    exists err. split; [exact Hrun | exact Hval].
  - destruct (createAlertCmdRun_validation Fake.parseObjectKindName Fake.parseLabels
                Fake.kubeClientFor Fake.exportResult Fake.pollerTicks
                (flagsWith ["Kustomization/gotk-system"; "invalid"] false)
                ["gotk-system"] (Fake.start Fake.empty)
                (or_intror (or_intror (or_introl
                   (ex_intro _ "invalid"
                      (conj (or_intror (or_introl eq_refl)) eq_refl))))))
      as (err & Hrun & Hval & _).
    exists err. split; [exact Hrun | exact Hval].
Defined.

Lemma createAlertCmdRun_export_witness :
  let fl := flagsWith ["Kustomization/gotk-system"] true in
  let run := createAlertFake fl ["gotk-system"] (Fake.start Fake.empty) in
  run.1 = None
  /\ cluster run.2 = Fake.empty
  /\ trace run.2 =
       [EvExport
          (desiredAlert fl "gotk-system" ∅
             [{| RefKind := "Kustomization"; RefName := "gotk-system";
                 RefNamespace := "" |}])].
Proof.
  intros fl run.
  assert (Hprov : aProviderRef fl <> "") by discriminate.
  assert (Hne : [{| RefKind := "Kustomization"; RefName := "gotk-system";
                    RefNamespace := "" |}] <> []) by discriminate.
  destruct (createAlertCmdRun_export Fake.parseObjectKindName Fake.parseLabels
              Fake.kubeClientFor Fake.exportResult Fake.pollerTicks
              fl "gotk-system" [] (Fake.start Fake.empty) _ ∅
              eq_refl Hprov eq_refl Hne eq_refl)
    as (Hr & Hk & Hev & _).
  split; [exact Hr | split; [exact Hk | exact Hev]].
Defined.

(** ** The example of the help text, end to end *)

Example create_then_wait_times_out :
  let run := createAlertFake Fake.flags ["gotk-system"] (Fake.start Fake.empty) in
  run.1 = Some ErrWaitTimeout
  /\ List.filter is_create (trace run.2) = [EvCreate Fake.desired]
  /\ length (List.filter (fun ev => match ev with EvGet _ => true | _ => false end)
               (trace run.2)) = 152%nat.
Proof. vm_compute. repeat split. Qed.

Example parse_event_source :
  Fake.parseObjectKindName "Kustomization/gotk-system" = ("Kustomization", "gotk-system")
  /\ Fake.parseObjectKindName "invalid" = ("", "invalid").
Proof. split; reflexivity. Qed.

Example format_without_operands :
  Fmt.Sprintf "" = ""
  /\ Fmt.Sprintf "provider not found" = "provider not found"
  /\ Fmt.Sprintf "100%% done" = "100% done"
  /\ Fmt.Sprintf "rate %d/s" = "rate %!d(MISSING)/s"
  /\ Fmt.Sprintf "%[2]s" = "%!s(BADINDEX)"
  /\ Fmt.Sprintf "%*s|%.*f" = "%!(BADWIDTH)%!s(MISSING)|%!(BADPREC)%!f(MISSING)".
Proof. repeat split. Qed.

(** ** Further properties of [upsertAlert] *)

(** Every run is the fetch followed by one of five shapes. *)
Lemma upsertAlert_shape {K} (kubeClient : KubeClient K) (alert : Alert.t)
    (w : World K) :
  exists evs,
    events_since w (upsertAlert kubeClient alert w).2 = EvGet (alertKey alert) :: evs
    /\ UpsertShape alert evs (upsertAlert kubeClient alert w).1.
Proof.
  destruct (Get kubeClient (alertKey alert) (cluster w)) as [[err | existing] k1] eqn:Hget.
  - destruct (errors.IsNotFound err) eqn:Hnf.
    + destruct (Create kubeClient alert k1) as [e k2] eqn:Hcreate.
      rewrite (upsertAlert_not_found _ _ _ _ _ _ _ Hget Hnf Hcreate).
      cbn [fst snd]. rewrite events_since_app.
      eexists. split; [reflexivity |]. destruct e; constructor.
    + rewrite (upsertAlert_fetch_error _ _ _ _ _ Hget Hnf).
      cbn [fst snd]. rewrite events_since_app.
      eexists. split; [reflexivity |]. constructor.
  - destruct (Update kubeClient (mergeInto alert existing) k1) as [e k2] eqn:Hupdate.
    rewrite (upsertAlert_found _ _ _ _ _ _ _ Hget Hupdate).
    cbn [fst snd]. rewrite events_since_app.
    eexists. split; [reflexivity |]. destruct e; constructor.
Qed.

(** X1. When the fetch reports not-found, [upsertAlert] issues exactly one
    Create, of the desired alert, and no Update. *)
Theorem upsertAlert_create_once {K} (kubeClient : KubeClient K) (alert : Alert.t)
    (w : World K) (err : error) :
  (Get kubeClient (alertKey alert) (cluster w)).1 = inl err ->
  errors.IsNotFound err = true ->
  let events := events_since w (upsertAlert kubeClient alert w).2 in
  List.filter is_create events = [EvCreate alert]
  /\ List.filter is_update events = [].
Proof.
  intros Hfetch Hnf events. subst events.
  destruct (Get kubeClient (alertKey alert) (cluster w)) as [r k1] eqn:Hget.
  cbn [fst] in Hfetch. subst r.
  destruct (Create kubeClient alert k1) as [e k2] eqn:Hcreate.
  rewrite (upsertAlert_not_found _ _ _ _ _ _ _ Hget Hnf Hcreate).
  cbn [snd]. rewrite events_since_app.
  destruct e; split; reflexivity.
Qed.

Lemma upsertAlert_create_once_witness :
  List.filter is_create
    (events_since (Fake.start Fake.empty)
       (upsertAlert Fake.client Fake.desired (Fake.start Fake.empty)).2)
  = [EvCreate Fake.desired].
Proof.
  exact (proj1 (upsertAlert_create_once Fake.client Fake.desired
                  (Fake.start Fake.empty) (Fake.notFound "gotk-system")
                  eq_refl eq_refl)).
Defined.

(** X2. [upsertAlert] prints a line exactly when it returns nil: then it is
    the one line "alert created" or "alert updated"; when it returns an
    error it has printed nothing. *)
Theorem upsertAlert_success_line {K} (kubeClient : KubeClient K) (alert : Alert.t)
    (w : World K) :
  let run := upsertAlert kubeClient alert w in
  let lines := List.filter is_log (events_since w run.2) in
  match run.1 with
  | None => lines = [EvLog Successf "alert created"]
            \/ lines = [EvLog Successf "alert updated"]
  | Some _ => lines = []
  end.
Proof.
  intros run lines. subst run lines.
  destruct (upsertAlert_shape kubeClient alert w) as (evs & -> & Hshape).
  destruct Hshape; simpl; auto.
Qed.

(** X3. A run of [upsertAlert] starts with the fetch of the desired
    namespace and name, fetches nothing else, and makes at most one more
    call, which is a write (Create or Update). *)
Theorem upsertAlert_calls {K} (kubeClient : KubeClient K) (alert : Alert.t)
    (w : World K) :
  exists rest,
    events_since w (upsertAlert kubeClient alert w).2 = EvGet (alertKey alert) :: rest
    /\ List.filter is_get rest = []
    /\ List.filter is_network rest = List.filter is_write rest
    /\ length (List.filter is_write rest) <= 1.
Proof.
  destruct (upsertAlert_shape kubeClient alert w) as (evs & Hev & Hshape).
  exists evs. split; [exact Hev |].
  destruct Hshape; simpl; auto.
Qed.

(** X4. Running [upsertAlert] a second time after a first run that created
    the alert, against a server that now returns an object for that name:
    the second run issues no Create, it issues one Update of that object
    with the desired labels and spec, and returns what Update returns. *)
Theorem upsertAlert_twice {K} (kubeClient : KubeClient K) (alert stored : Alert.t)
    (w : World K) (err : error) (k1 k2 k3 : K) :
  Get kubeClient (alertKey alert) (cluster w) = (inl err, k1) ->
  errors.IsNotFound err = true ->
  Create kubeClient alert k1 = (None, k2) ->
  Get kubeClient (alertKey alert) k2 = (inr stored, k3) ->
  let first := upsertAlert kubeClient alert w in
  let second := upsertAlert kubeClient alert first.2 in
  let events := events_since first.2 second.2 in
  first.1 = None
  /\ List.filter is_create events = []
  /\ List.filter is_update events = [EvUpdate (mergeInto alert stored)]
  /\ second.1 = (Update kubeClient (mergeInto alert stored) k3).1.
Proof.
  intros Hget1 Hnf Hcreate Hget2 first second events.
  subst events second first.
  rewrite (upsertAlert_not_found _ _ _ _ _ _ _ Hget1 Hnf Hcreate).
  cbn [fst snd]. split; [reflexivity |].
  destruct (Update kubeClient (mergeInto alert stored) k3) as [e k4] eqn:Hupdate.
  rewrite (upsertAlert_found kubeClient alert _ stored k3 e k4); [| exact Hget2 | exact Hupdate].
  cbn [fst snd]. rewrite events_since_app.
  destruct e; repeat split.
Qed.

Lemma upsertAlert_twice_witness :
  let first := upsertAlert Fake.client Fake.desired (Fake.start Fake.empty) in
  let second := upsertAlert Fake.client Fake.desired first.2 in
  first.1 = None
  /\ List.filter is_create (events_since first.2 second.2) = []
  /\ second.1 = None.
Proof.
  destruct (upsertAlert_twice Fake.client Fake.desired Fake.desired
              (Fake.start Fake.empty) (Fake.notFound "gotk-system")
              Fake.empty (Fake.holding Fake.desired) (Fake.holding Fake.desired)
              eq_refl eq_refl eq_refl eq_refl)
    as (H1 & H2 & _ & H4).
  split; [exact H1 | split; [exact H2 | exact H4]].
Defined.

(** ** Further properties of [isAlertReady] and of the wait on it *)

Section PollExtras.

Context {K : Type} (kubeClient : KubeClient K) (name namespace : string).

Local Abbreviation step := (isAlertReady kubeClient name namespace).
Local Abbreviation key := (pollKey name namespace).

(** The world after a poll step: the server state after the fetch, and the
    trace with the fetch added. *)
Lemma isAlertReady_world (w : World K) :
  (step w).2 =
    {| cluster := (Get kubeClient key (cluster w)).2;
       trace := (trace w ++ [EvGet key])%list |}.
Proof.
  unfold pollKey. run_go.
  destruct (Get kubeClient _ (cluster w)) as [[err | alert] k1]; simpl;
    [reflexivity |].
  destruct (meta.GetCondition _ _) as [c |]; simpl; [| reflexivity].
  destruct (String.eqb _ corev1.ConditionTrue); simpl; [reflexivity |].
  destruct (String.eqb _ corev1.ConditionFalse); reflexivity.
Qed.

Lemma isAlertReady_done_inv (w : World K) :
  (step w).1 = (true, None) ->
  exists alert c,
    (Get kubeClient key (cluster w)).1 = inr alert
    /\ meta.GetCondition (Alert.Status alert) meta.ReadyCondition = Some c
    /\ meta.Status c = corev1.ConditionTrue.
Proof.
  destruct (Get kubeClient key (cluster w)) as [[err | alert] k1] eqn:Hget.
  - rewrite (isAlertReady_fetch_error _ _ _ _ _ _ Hget). discriminate.
  - destruct (meta.GetCondition (Alert.Status alert) meta.ReadyCondition)
      as [c |] eqn:Hc.
    + rewrite (isAlertReady_condition _ _ _ _ _ _ _ Hget Hc).
      destruct (String.eqb (meta.Status c) corev1.ConditionTrue) eqn:Ht.
      * intros _. apply String.eqb_eq in Ht. exists alert, c. auto.
      * destruct (String.eqb _ corev1.ConditionFalse); discriminate.
    + rewrite (isAlertReady_no_condition _ _ _ _ _ _ Hget Hc). discriminate.
Qed.

(** X5. Whatever the server answers, a poll step makes exactly one call, the
    Get of the namespace and name it was built for; it leaves the server in
    the state that Get left it in; and it never reports done together with
    an error. *)
Theorem isAlertReady_reads_once (w : World K) :
  events_since w (step w).2 = [EvGet key]
  /\ cluster (step w).2 = (Get kubeClient key (cluster w)).2
  /\ ((step w).1 = (true, None) \/ fst (step w).1 = false).
Proof.
  rewrite isAlertReady_world. split; [apply events_since_app |].
  split; [reflexivity |].
  destruct (Get kubeClient key (cluster w)) as [[err | alert] k1] eqn:Hget.
  - rewrite (isAlertReady_fetch_error _ _ _ _ _ _ Hget). auto.
  - destruct (meta.GetCondition (Alert.Status alert) meta.ReadyCondition)
      as [c |] eqn:Hc.
    + rewrite (isAlertReady_condition _ _ _ _ _ _ _ Hget Hc).
      destruct (String.eqb _ corev1.ConditionTrue); [auto |].
      destruct (String.eqb _ corev1.ConditionFalse); auto.
    + rewrite (isAlertReady_no_condition _ _ _ _ _ _ Hget Hc). auto.
Qed.

(** A step that fails ends the wait there, with the step's world. *)
Lemma poll_step_error (ticks : nat) (w : World K) (done : bool) (err : error) :
  (step w).1 = (done, Some err) ->
  poll ticks step w = (Some err, (step w).2).
Proof.
  intros Hs. apply (poll_fail_fast ticks step w (step w).2 done err).
  rewrite <- Hs. destruct (step w); reflexivity.
Qed.

(** X6. A fetch error during the wait, not-found included, ends the wait at
    once: whatever ticks remain, the wait returns that very error after the
    one Get. *)
Theorem poll_fetch_error (ticks : nat) (w : World K) (err : error) :
  (Get kubeClient key (cluster w)).1 = inl err ->
  let run := poll ticks step w in
  run.1 = Some err /\ events_since w run.2 = [EvGet key].
Proof.
  intros Hfetch run. subst run.
  destruct (Get kubeClient key (cluster w)) as [r k1] eqn:Hget.
  cbn [fst] in Hfetch. subst r.
  rewrite (poll_step_error ticks w false err
             (isAlertReady_fetch_error _ _ _ _ _ _ Hget)).
  cbn [fst snd]. rewrite isAlertReady_world.
  split; [reflexivity | apply events_since_app].
Qed.



(** X9. The wait returns nil only from a step whose Get fetched an alert
    with a Ready condition of status True; it stops at that Get, and the
    server is left in the state that Get left it in. *)
Theorem poll_ready_inv (ticks : nat) (w : World K) :
  (poll ticks step w).1 = None ->
  exists (w0 : World K) (alert : Alert.t) (c : meta.Condition),
    (Get kubeClient key (cluster w0)).1 = inr alert
    /\ meta.GetCondition (Alert.Status alert) meta.ReadyCondition = Some c
    /\ meta.Status c = corev1.ConditionTrue
    /\ cluster (poll ticks step w).2 = (Get kubeClient key (cluster w0)).2
    /\ last (events_since w (poll ticks step w).2) = Some (EvGet key).
Proof.
  assert (Hgen : forall n (w0 : World K),
             (poll n step w0).1 = None ->
             exists (w1 : World K) (alert : Alert.t) (c : meta.Condition) evs,
               (Get kubeClient key (cluster w1)).1 = inr alert
               /\ meta.GetCondition (Alert.Status alert) meta.ReadyCondition = Some c
               /\ meta.Status c = corev1.ConditionTrue
               /\ cluster (poll n step w0).2 = (Get kubeClient key (cluster w1)).2
               /\ trace (poll n step w0).2 = (trace w0 ++ evs ++ [EvGet key])%list).
  { induction n as [| n IH]; intros w0; simpl; unfold bind;
      pose proof (isAlertReady_world w0) as Hw;
      pose proof (isAlertReady_done_inv w0) as Hdone;
      destruct (step w0) as [[done e] w1]; cbn [fst snd] in Hw, Hdone;
      destruct e as [err |]; try (destruct done; discriminate);
      destruct done; try discriminate.
    - intros _. destruct (Hdone eq_refl) as (alert & c & H1 & H2 & H3).
      exists w0, alert, c, []. subst w1. simpl. auto.
    - intros _. destruct (Hdone eq_refl) as (alert & c & H1 & H2 & H3).
      exists w0, alert, c, []. subst w1. simpl. auto.
    - intros Hnil. destruct (IH w1 Hnil) as (w2 & alert & c & evs & H1 & H2 & H3 & H4 & H5).
      exists w2, alert, c, (EvGet key :: evs).
      repeat (split; [assumption |]).
      rewrite H5, Hw. cbn [trace]. rewrite <- app_assoc. reflexivity. }
  intros Hnil.
  destruct (Hgen ticks w Hnil) as (w1 & alert & c & evs & H1 & H2 & H3 & H4 & H5).
  exists w1, alert, c. repeat (split; [assumption |]).
  unfold events_since. rewrite H5, drop_app_length.
  apply last_snoc.
Qed.

End PollExtras.

Lemma poll_fetch_error_witness :
  (poll 5 (isAlertReady Fake.client "gotk-system" "gotk-system")
     (Fake.start Fake.empty)).1
  = Some (Fake.notFound "gotk-system").
Proof.
  exact (proj1 (poll_fetch_error Fake.client "gotk-system" "gotk-system" 5
                  (Fake.start Fake.empty) (Fake.notFound "gotk-system") eq_refl)).
Defined.



Lemma poll_ready_inv_witness :
  let w := Fake.start (Fake.holding (Fake.stored [Fake.condition "True" "Initialized"])) in
  exists (w0 : World Fake.Cluster) (alert : Alert.t) (c : meta.Condition),
    (Get Fake.client (pollKey "gotk-system" "gotk-system") (cluster w0)).1 = inr alert
    /\ meta.GetCondition (Alert.Status alert) meta.ReadyCondition = Some c
    /\ meta.Status c = corev1.ConditionTrue.
Proof.
  intros w.
  destruct (poll_ready_inv Fake.client "gotk-system" "gotk-system" 3 w eq_refl)
    as (w0 & alert & c & H1 & H2 & H3 & _).
  exists w0, alert, c. auto.
Defined.

(** ** Further properties of [createAlertCmdRun] *)

Section CreateAlertExtras.

Context {K : Type}.
Variable parseObjectKindName : string -> string * string.
Variable parseLabels : list string -> error + gmap string string.
Variable kubeClientFor : string -> error + KubeClient K.
Variable exportResult : Alert.t -> option error.
Variable pollerTicks : Z -> Z -> nat.

Local Abbreviation createAlert :=
  (createAlertCmdRun parseObjectKindName parseLabels kubeClientFor exportResult
     pollerTicks).
Local Abbreviation eventSourcesOf := (parseEventSources parseObjectKindName).
Local Abbreviation refOf := (referenceOf parseObjectKindName).
Local Abbreviation valid := (validated parseObjectKindName parseLabels).

(** *** The loop over the event sources *)

Lemma parseEventSources_step (eventSource : string) (rest : list string)
    (acc : list CrossNamespaceObjectReference) :
  eventSourcesOf (eventSource :: rest) acc =
    if String.eqb (parseObjectKindName eventSource).1 ""
    then inl (invalidEventSource eventSource)
    else eventSourcesOf rest (acc ++ [refOf eventSource])%list.
Proof.
  simpl. unfold referenceOf.
  destruct (parseObjectKindName eventSource) as [kind name]. reflexivity.
Qed.

Lemma parseEventSources_good (good rest : list string)
    (acc : list CrossNamespaceObjectReference) :
  (forall es, In es good -> (parseObjectKindName es).1 <> "") ->
  eventSourcesOf (good ++ rest) acc
  = eventSourcesOf rest (acc ++ List.map refOf good)%list.
Proof.
  revert acc. induction good as [| g good IH]; intros acc Hgood.
  - simpl. rewrite app_nil_r. reflexivity.
  - change ((g :: good) ++ rest)%list with (g :: (good ++ rest))%list.
    rewrite parseEventSources_step.
    assert (Hg : (parseObjectKindName g).1 <> "") by (apply Hgood; left; reflexivity).
    apply String.eqb_neq in Hg. rewrite Hg.
    rewrite IH by (intros es Hin; apply Hgood; right; exact Hin).
    simpl. rewrite <- app_assoc. reflexivity.
Qed.

(** X10. The loop over the [--event-source] flags ends well exactly when
    every flag parses to a non-empty kind, and then it has built one
    reference per flag, in the order of the flags, with the parsed kind and
    name and no namespace. *)
Theorem parseEventSources_ok (sources : list string)
    (eventSources : list CrossNamespaceObjectReference) :
  eventSourcesOf sources [] = inr eventSources
  <-> (forall es, In es sources -> (parseObjectKindName es).1 <> "")
      /\ eventSources = List.map refOf sources.
Proof.
  split.
  - intros Hok.
    assert (Hall : forall es, In es sources -> (parseObjectKindName es).1 <> "").
    { intros es Hin Hkind.
      destruct (parseEventSources_malformed parseObjectKindName sources
                  (ex_intro _ es (conj Hin Hkind)) []) as (es' & _ & Hbad).
      rewrite Hbad in Hok. discriminate. }
    split; [exact Hall |].
    pose proof (parseEventSources_good sources [] [] Hall) as Hgood.
    rewrite app_nil_r in Hgood. rewrite Hgood in Hok. simpl in Hok.
    congruence.
  - intros [Hall ->].
    pose proof (parseEventSources_good sources [] [] Hall) as Hgood.
    rewrite app_nil_r in Hgood. exact Hgood.
Qed.

(** *** Errors from the arguments and flags *)

(** X11. The checks run in a fixed order and the first that fails decides
    the error: without a name argument it is "alert name is required"
    whatever the flags; with a name and an empty provider reference it is
    "provider ref is required" whatever the event sources; with a name, a
    provider reference and no event source it is "at least one event source
    is required".  In each case nothing has been done. *)
Theorem createAlertCmdRun_first_error (fl : Flags) (args : list string)
    (w : World K) :
  (args = [] ->
   createAlert fl args w = (Some (errorString "alert name is required"), w))
  /\ (args <> [] -> aProviderRef fl = "" ->
      createAlert fl args w = (Some (errorString "provider ref is required"), w))
  /\ (args <> [] -> aProviderRef fl <> "" -> aEventSources fl = [] ->
      createAlert fl args w
      = (Some (errorString "at least one event source is required"), w)).
Proof.
  unfold createAlertCmdRun. split; [| split].
  - intros ->. reflexivity.
  - intros Hargs Hprov. destruct args as [| name rest]; [contradiction |].
    rewrite Hprov. reflexivity.
  - intros Hargs Hprov Hnone. destruct args as [| name rest]; [contradiction |].
    apply String.eqb_neq in Hprov. rewrite Hprov, Hnone. reflexivity.
Qed.

(** X12. With a name and a provider reference, the error names the first
    event source that parses to an empty kind; the sources after it are not
    looked at, and nothing has been done. *)
Theorem createAlertCmdRun_first_malformed (fl : Flags) (name : string)
    (rest : list string) (w : World K) (good : list string) (bad : string)
    (more : list string) :
  aProviderRef fl <> "" ->
  aEventSources fl = (good ++ bad :: more)%list ->
  (forall es, In es good -> (parseObjectKindName es).1 <> "") ->
  (parseObjectKindName bad).1 = "" ->
  createAlert fl (name :: rest) w
  = (Some (errorString ("invalid event source '" ++ bad
                        ++ "', must be in format <kind>/<name>")), w).
Proof.
  intros Hprov Hsources Hgood Hbad. unfold createAlertCmdRun.
  apply String.eqb_neq in Hprov. rewrite Hprov, Hsources.
  rewrite (parseEventSources_good good (bad :: more) [] Hgood).
  rewrite parseEventSources_step, Hbad. reflexivity.
Qed.

(** X13. An error of [parseLabels] is returned as it is, after the checks
    of the name, the provider reference and the event sources, and before
    anything is printed or sent. *)
Theorem createAlertCmdRun_labels_error (fl : Flags) (name : string)
    (rest : list string) (w : World K)
    (eventSources : list CrossNamespaceObjectReference) (err : error) :
  aProviderRef fl <> "" ->
  eventSourcesOf (aEventSources fl) [] = inr eventSources ->
  eventSources <> [] ->
  parseLabels (labels fl) = inl err ->
  createAlert fl (name :: rest) w = (Some err, w).
Proof.
  intros Hprov Hsources Hne Hlabels. unfold createAlertCmdRun.
  apply String.eqb_neq in Hprov. rewrite Hprov, Hsources.
  destruct eventSources as [| ref refs]; [contradiction |].
  cbn [length Nat.eqb]. rewrite Hlabels. reflexivity.
Qed.

(** *** The path to the server *)

(** X14. With valid flags and no export, an error of the client
    construction is returned as it is: the command has printed
    "generating alert" and tried to build the client, and has sent nothing
    to the server. *)
Theorem createAlertCmdRun_client_error (fl : Flags) (name : string)
    (rest : list string) (w : World K)
    (eventSources : list CrossNamespaceObjectReference)
    (sourceLabels : gmap string string) (err : error) :
  valid fl eventSources sourceLabels ->
  export fl = false ->
  kubeClientFor (kubeconfig fl) = inl err ->
  createAlert fl (name :: rest) w =
    (Some err,
     {| cluster := cluster w;
        trace := (trace w ++ [generatingLine; EvKubeClient (kubeconfig fl)])%list |}).
Proof.
  intros (Hprov & Hsources & Hne & Hlabels) Hexport Hclient.
  unfold createAlertCmdRun.
  apply String.eqb_neq in Hprov. rewrite Hprov, Hsources.
  destruct eventSources as [| ref refs]; [contradiction |].
  cbn [length Nat.eqb]. rewrite Hlabels, Hexport.
  run_go. rewrite Hclient. simpl. rewrite <- app_assoc. reflexivity.
Qed.

(** With valid flags, no export and a client, the run is [upsertAlert], then
    the wait, then the last line; the first error ends it. *)
Lemma createAlertCmdRun_applied (fl : Flags) (name : string) (rest : list string)
    (w : World K) (eventSources : list CrossNamespaceObjectReference)
    (sourceLabels : gmap string string) (kubeClient : KubeClient K) :
  valid fl eventSources sourceLabels ->
  export fl = false ->
  kubeClientFor (kubeconfig fl) = inr kubeClient ->
  createAlert fl (name :: rest) w =
    let upserted :=
      upsertAlert kubeClient (desiredAlert fl name sourceLabels eventSources)
        (applying fl w) in
    match upserted.1 with
    | Some err => (Some err, upserted.2)
    | None =>
        let waited :=
          poll (pollerTicks (pollInterval fl) (timeout fl))
            (isAlertReady kubeClient name (namespace fl)) (waiting upserted.2) in
        match waited.1 with
        | Some err => (Some err, waited.2)
        | None =>
            (None,
             {| cluster := cluster waited.2;
                trace := (trace waited.2 ++ [readyLine name])%list |})
        end
    end.
Proof.
  intros (Hprov & Hsources & Hne & Hlabels) Hexport Hclient.
  unfold createAlertCmdRun.
  apply String.eqb_neq in Hprov. rewrite Hprov, Hsources.
  destruct eventSources as [| ref refs]; [contradiction |].
  cbn [length Nat.eqb]. rewrite Hlabels, Hexport.
  unfold utils_kubeClient, PollImmediate, logger, emit, bind, ret. simpl.
  rewrite Hclient. simpl.
  unfold applying, waiting, generatingLine, applyingLine, waitingLine, readyLine.
  rewrite <- !app_assoc. simpl.
  destruct (upsertAlert kubeClient _ _) as [[err |] w2]; simpl; [reflexivity |].
  destruct (poll _ _ _) as [[err |] w3]; reflexivity.
Qed.

End CreateAlertExtras.

(** *** Counting writes *)

Section Writes.

Context {K : Type}.

Lemma writes_weaken {A} (n n' : nat) (m : M K A) :
  n <= n' -> writes_at_most n m -> writes_at_most n' m.
Proof.
  intros Hle Hm w. destruct (Hm w) as (evs & Ht & Hn).
  exists evs. split; [exact Ht | lia].
Qed.

Lemma writes_ret {A} (a : A) : writes_at_most (K := K) 0 (ret a).
Proof. intros w. exists []. simpl. rewrite app_nil_r. auto. Qed.

Lemma writes_bind {A B} (n1 n2 : nat) (m : M K A) (f : A -> M K B) :
  writes_at_most n1 m -> (forall a, writes_at_most n2 (f a)) ->
  writes_at_most (n1 + n2) (bind m f).
Proof.
  intros Hm Hf w. unfold bind.
  destruct (Hm w) as (evs1 & Ht1 & Hn1).
  destruct (m w) as [a w1]. simpl in Ht1.
  destruct (Hf a w1) as (evs2 & Ht2 & Hn2).
  exists (evs1 ++ evs2)%list. split.
  - rewrite Ht2, Ht1, app_assoc. reflexivity.
  - rewrite List.filter_app, length_app. lia.
Qed.

Lemma writes_of_appends {A} (m : M K A) :
  appends (fun ev => is_write ev = false) m -> writes_at_most 0 m.
Proof.
  intros Hm w. destruct (Hm w) as (evs & Ht & Hall).
  exists evs. split; [exact Ht |]. clear Ht.
  induction Hall as [| ev evs Hev _ IH]; simpl; [lia |].
  rewrite Hev. exact IH.
Qed.

Lemma writes_call {A} (ev : Event) (f : K -> A * K) :
  writes_at_most 1 (call ev f).
Proof.
  intros w. exists [ev]. unfold call.
  destruct (f (cluster w)) as [a k1]. simpl.
  split; [reflexivity | destruct (is_write ev); simpl; lia].
Qed.

Lemma writes_quiet_call {A} (ev : Event) (f : K -> A * K) :
  is_write ev = false -> writes_at_most 0 (call ev f).
Proof. intros Hev. apply writes_of_appends, appends_call, Hev. Qed.

Lemma writes_quiet_emit (ev : Event) :
  is_write ev = false -> writes_at_most (K := K) 0 (emit ev).
Proof. intros Hev. apply writes_of_appends, appends_emit, Hev. Qed.

Lemma writes_events_since {A} (n : nat) (m : M K A) (w : World K) :
  writes_at_most n m ->
  length (List.filter is_write (events_since w (m w).2)) <= n.
Proof.
  intros Hm. destruct (Hm w) as (evs & Ht & Hn).
  unfold events_since. rewrite Ht, drop_app_length. exact Hn.
Qed.

Lemma upsertAlert_writes (kubeClient : KubeClient K) (alert : Alert.t) :
  writes_at_most 1 (upsertAlert kubeClient alert).
Proof.
  unfold upsertAlert.
  apply (writes_bind 0 1); [apply writes_quiet_call; reflexivity |].
  intros [err | existing].
  - destruct (errors.IsNotFound err);
      [| apply (writes_weaken 0); [lia | apply writes_ret]].
    apply (writes_bind 1 0); [apply writes_call |].
    intros [cerr |]; [apply writes_ret |].
    apply (writes_bind 0 0);
      [apply writes_quiet_emit; reflexivity | intros; apply writes_ret].
  - apply (writes_bind 1 0); [apply writes_call |].
    intros [uerr |]; [apply writes_ret |].
    apply (writes_bind 0 0);
      [apply writes_quiet_emit; reflexivity | intros; apply writes_ret].
Qed.

Lemma isAlertReady_quiet (kubeClient : KubeClient K) (name namespace : string) :
  appends (fun ev => is_write ev = false) (isAlertReady kubeClient name namespace).
Proof.
  unfold isAlertReady.
  apply appends_bind; [apply appends_call; reflexivity |].
  intros [err | alert]; [apply appends_ret |].
  destruct (meta.GetCondition _ _) as [c |]; [| apply appends_ret].
  destruct (String.eqb _ corev1.ConditionTrue); [apply appends_ret |].
  destruct (String.eqb _ corev1.ConditionFalse); apply appends_ret.
Qed.

End Writes.

Section CreateAlertRuns.

Context {K : Type}.
Variable parseObjectKindName : string -> string * string.
Variable parseLabels : list string -> error + gmap string string.
Variable kubeClientFor : string -> error + KubeClient K.
Variable exportResult : Alert.t -> option error.
Variable pollerTicks : Z -> Z -> nat.

Local Abbreviation createAlert :=
  (createAlertCmdRun parseObjectKindName parseLabels kubeClientFor exportResult
     pollerTicks).
Local Abbreviation valid := (validated parseObjectKindName parseLabels).

(** X15. Whatever the arguments, the flags and the server, a run of
    [createAlertCmdRun] sends at most one write (one Create or one Update)
    to the server, however long it then waits. *)
Theorem createAlertCmdRun_one_write (fl : Flags) (args : list string) (w : World K) :
  length (List.filter is_write (events_since w (createAlert fl args w).2)) <= 1.
Proof.
  apply writes_events_since.
  assert (Hret : forall e : option error, writes_at_most (K := K) 1 (ret e)).
  { intros e. apply (writes_weaken 0); [lia | apply writes_ret]. }
  unfold createAlertCmdRun.
  destruct args as [| name rest]; [apply Hret |].
  destruct (String.eqb (aProviderRef fl) ""); [apply Hret |].
  destruct (parseEventSources _ _ _) as [err | eventSources]; [apply Hret |].
  destruct (Nat.eqb (length eventSources) 0); [apply Hret |].
  destruct (parseLabels (labels fl)) as [err | sourceLabels]; [apply Hret |].
  apply (writes_bind 0 1).
  { destruct (export fl);
      [apply writes_ret | apply writes_quiet_emit; reflexivity]. }
  intros _. destruct (export fl).
  { unfold exportAlert. apply (writes_bind 0 1);
      [apply writes_quiet_emit; reflexivity | intros; apply Hret]. }
  apply (writes_bind 0 1).
  { unfold utils_kubeClient. apply (writes_bind 0 0);
      [apply writes_quiet_emit; reflexivity | intros; apply writes_ret]. }
  intros [err | kubeClient]; [apply Hret |].
  apply (writes_bind 0 1); [apply writes_quiet_emit; reflexivity |]. intros _.
  apply (writes_bind 1 0); [apply upsertAlert_writes |].
  intros [err |]; [apply writes_ret |].
  apply (writes_bind 0 0); [apply writes_quiet_emit; reflexivity |]. intros _.
  apply (writes_bind 0 0).
  { apply writes_of_appends, poll_appends, isAlertReady_quiet. }
  intros [err |]; [apply writes_ret |].
  apply (writes_bind 0 0);
    [apply writes_quiet_emit; reflexivity | intros; apply writes_ret].
Qed.

(** X16. A run of [create alert <name>] only ever fetches the alert of that
    name in the namespace of the flags, only ever creates an alert of that
    name and namespace, and never lists objects or prints a table. *)
Theorem createAlertCmdRun_footprint (fl : Flags) (name : string)
    (rest : list string) (w : World K) :
  Forall (footprint fl name) (events_since w (createAlert fl (name :: rest) w).2).
Proof.
  apply appends_events_since.
  unfold createAlertCmdRun.
  destruct (String.eqb (aProviderRef fl) ""); [apply appends_ret |].
  destruct (parseEventSources _ _ _) as [err | eventSources]; [apply appends_ret |].
  destruct (Nat.eqb (length eventSources) 0); [apply appends_ret |].
  destruct (parseLabels (labels fl)) as [err | sourceLabels]; [apply appends_ret |].
  apply appends_bind.
  { destruct (export fl); [apply appends_ret | apply appends_emit; exact I]. }
  intros _. destruct (export fl).
  { unfold exportAlert. apply appends_bind; [apply appends_emit; exact I |].
    intros; apply appends_ret. }
  apply appends_bind.
  { unfold utils_kubeClient.
    apply appends_bind; [apply appends_emit; exact I | intros; apply appends_ret]. }
  intros [err | kubeClient]; [apply appends_ret |].
  apply appends_bind; [apply appends_emit; exact I |]. intros _.
  apply appends_bind.
  { unfold upsertAlert.
    apply appends_bind; [apply appends_call; reflexivity |].
    intros [err | existing].
    - destruct (errors.IsNotFound err); [| apply appends_ret].
      apply appends_bind; [apply appends_call; split; reflexivity |].
      intros [cerr |]; [apply appends_ret |].
      apply appends_bind; [apply appends_emit; exact I | intros; apply appends_ret].
    - apply appends_bind; [apply appends_call; exact I |].
      intros [uerr |]; [apply appends_ret |].
      apply appends_bind; [apply appends_emit; exact I | intros; apply appends_ret]. }
  intros [err |]; [apply appends_ret |].
  apply appends_bind; [apply appends_emit; exact I |]. intros _.
  apply appends_bind.
  { apply poll_appends. unfold isAlertReady.
    apply appends_bind; [apply appends_call; reflexivity |].
    intros [err | alert]; [apply appends_ret |].
    destruct (meta.GetCondition _ _) as [c |]; [| apply appends_ret].
    destruct (String.eqb _ corev1.ConditionTrue); [apply appends_ret |].
    destruct (String.eqb _ corev1.ConditionFalse); apply appends_ret. }
  intros [err |]; [apply appends_ret |].
  apply appends_bind; [apply appends_emit; exact I | intros; apply appends_ret].
Qed.

End CreateAlertRuns.

Lemma upsertAlert_trace {K} (kubeClient : KubeClient K) (alert : Alert.t)
    (w : World K) :
  exists evs,
    trace (upsertAlert kubeClient alert w).2
    = (trace w ++ EvGet (alertKey alert) :: evs)%list
    /\ UpsertShape alert evs (upsertAlert kubeClient alert w).1.
Proof.
  destruct (Get kubeClient (alertKey alert) (cluster w)) as [[err | existing] k1] eqn:Hget.
  - destruct (errors.IsNotFound err) eqn:Hnf.
    + destruct (Create kubeClient alert k1) as [e k2] eqn:Hcreate.
      rewrite (upsertAlert_not_found _ _ _ _ _ _ _ Hget Hnf Hcreate).
      eexists. split; [reflexivity |]. destruct e; constructor.
    + rewrite (upsertAlert_fetch_error _ _ _ _ _ Hget Hnf).
      eexists. split; [reflexivity |]. constructor.
  - destruct (Update kubeClient (mergeInto alert existing) k1) as [e k2] eqn:Hupdate.
    rewrite (upsertAlert_found _ _ _ _ _ _ _ Hget Hupdate).
    eexists. split; [reflexivity |]. destruct e; constructor.
Qed.

(** The wait always ends on a Get. *)
Lemma poll_trace {K} (kubeClient : KubeClient K) (name namespace : string)
    (ticks : nat) (w : World K) :
  exists evs,
    trace (poll ticks (isAlertReady kubeClient name namespace) w).2
    = (trace w ++ evs ++ [EvGet (pollKey name namespace)])%list.
Proof.
  revert w. induction ticks as [| n IH]; intros w; simpl; unfold bind;
    pose proof (isAlertReady_world kubeClient name namespace w) as Hw;
    destruct (isAlertReady kubeClient name namespace w) as [[done e] w1];
    cbn [snd] in Hw; subst w1;
    destruct e as [err |]; try (exists []; destruct done; reflexivity);
    destruct done; try (exists []; reflexivity).
  destruct (IH {| cluster := (Get kubeClient (pollKey name namespace) (cluster w)).2;
                  trace := (trace w ++ [EvGet (pollKey name namespace)])%list |})
    as (evs & Hevs).
  exists (EvGet (pollKey name namespace) :: evs).
  rewrite Hevs. cbn [trace]. rewrite <- app_assoc. reflexivity.
Qed.

Section CreateAlertOutcome.

Context {K : Type}.
Variable parseObjectKindName : string -> string * string.
Variable parseLabels : list string -> error + gmap string string.
Variable kubeClientFor : string -> error + KubeClient K.
Variable exportResult : Alert.t -> option error.
Variable pollerTicks : Z -> Z -> nat.

Local Abbreviation createAlert :=
  (createAlertCmdRun parseObjectKindName parseLabels kubeClientFor exportResult
     pollerTicks).
Local Abbreviation valid := (validated parseObjectKindName parseLabels).

Context (fl : Flags) (name : string) (rest : list string) (w : World K).
Context (eventSources : list CrossNamespaceObjectReference).
Context (sourceLabels : gmap string string) (kubeClient : KubeClient K).

Local Abbreviation desired := (desiredAlert fl name sourceLabels eventSources).
Local Abbreviation upserted := (upsertAlert kubeClient desired (applying fl w)).

(** X17. When [upsertAlert] fails, the command returns its error and stops
    there: it does not print "waiting for reconciliation" and the fetch of
    [upsertAlert] is the only Get of the run, so no poll step has run. *)
Theorem createAlertCmdRun_upsert_error (err : error) :
  valid fl eventSources sourceLabels ->
  export fl = false ->
  kubeClientFor (kubeconfig fl) = inr kubeClient ->
  upserted.1 = Some err ->
  let run := createAlert fl (name :: rest) w in
  run.1 = Some err
  /\ run.2 = upserted.2
  /\ List.filter is_get (events_since w run.2)
     = [EvGet {| types.Namespace := namespace fl; types.Name := name |}]
  /\ ~ In waitingLine (events_since w run.2).
Proof.
  intros Hvalid Hexport Hclient Herr run. subst run.
  rewrite (createAlertCmdRun_applied _ _ _ _ _ _ _ _ _ _ _ _
             Hvalid Hexport Hclient).
  cbn zeta. rewrite Herr. cbn [fst snd].
  split; [reflexivity | split; [reflexivity |]].
  destruct (upsertAlert_trace kubeClient desired (applying fl w))
    as (evs & Htrace & Hshape).
  rewrite Herr in Hshape.
  unfold events_since. rewrite Htrace. unfold applying. cbn [trace].
  rewrite <- app_assoc, drop_app_length.
  inversion Hshape; subst; simpl; (split; [reflexivity |]);
    unfold waitingLine, generatingLine, applyingLine; intros Hin;
    repeat (destruct Hin as [Hin | Hin]; [discriminate |]); exact Hin.
Qed.

(** X18. With valid flags, no export and a client, the command returns nil
    exactly when the last thing it did was print "alert <name> is ready". *)
Theorem createAlertCmdRun_ready_line :
  valid fl eventSources sourceLabels ->
  export fl = false ->
  kubeClientFor (kubeconfig fl) = inr kubeClient ->
  let run := createAlert fl (name :: rest) w in
  run.1 = None <-> last (events_since w run.2) = Some (readyLine name).
Proof.
  intros Hvalid Hexport Hclient run. subst run.
  rewrite (createAlertCmdRun_applied _ _ _ _ _ _ _ _ _ _ _ _
             Hvalid Hexport Hclient).
  cbn zeta.
  destruct (upsertAlert_trace kubeClient desired (applying fl w))
    as (evs & Htrace & Hshape).
  destruct (upserted.1) as [err |] eqn:Hup.
  - cbn [fst snd]. unfold events_since. rewrite Htrace.
    unfold applying. cbn [trace]. rewrite <- app_assoc, drop_app_length.
    split; [discriminate |].
    inversion Hshape; subst; simpl; discriminate.
  - destruct (poll_trace kubeClient name (namespace fl)
                (pollerTicks (pollInterval fl) (timeout fl)) (waiting upserted.2))
      as (pevs & Hpoll).
    destruct (poll _ _ (waiting upserted.2)) as [[err |] w3] eqn:Hwait;
      cbn [fst snd] in *; unfold events_since.
    + rewrite Hpoll. unfold waiting. cbn [trace]. rewrite Htrace.
      unfold applying. cbn [trace].
      rewrite <- !app_assoc, drop_app_length.
      split; [discriminate |].
      rewrite !app_assoc, last_snoc. discriminate.
    + cbn [trace]. rewrite Hpoll. unfold waiting. cbn [trace]. rewrite Htrace.
      unfold applying. cbn [trace].
      rewrite <- !app_assoc, drop_app_length.
      split; [intros _ | reflexivity].
      rewrite !app_assoc, last_snoc. reflexivity.
Qed.

End CreateAlertOutcome.

(** ** Further properties of [getReceiverCmdRun] *)

Lemma Title_FormatBool (b : bool) :
  Title (FormatBool b) = if b then "True" else "False".
Proof. destruct b; reflexivity. Qed.

Section GetReceiversExtras.

Context {K : Type} (kubeClientFor : string -> error + KubeClient K).
Context (fl : Flags) (args : list string) (w : World K).

Local Abbreviation getReceivers := (getReceiverCmdRun kubeClientFor fl args w).

Lemma getReceiverCmdRun_client_error_run (err : error) :
  kubeClientFor (kubeconfig fl) = inl err ->
  getReceivers =
    (Some err,
     {| cluster := cluster w;
        trace := (trace w ++ [EvKubeClient (kubeconfig fl)])%list |}).
Proof.
  intros Hclient. unfold getReceiverCmdRun. run_go. rewrite Hclient. reflexivity.
Qed.

(** X19. An error of the client construction is returned as it is, and the
    command has then called neither List nor the printer: the attempt to
    build the client is all it did. *)
Theorem getReceiverCmdRun_client_error (err : error) :
  kubeClientFor (kubeconfig fl) = inl err ->
  getReceivers.1 = Some err
  /\ cluster getReceivers.2 = cluster w
  /\ events_since w getReceivers.2 = [EvKubeClient (kubeconfig fl)].
Proof.
  intros Hclient. rewrite (getReceiverCmdRun_client_error_run _ Hclient).
  cbn [fst snd cluster]. rewrite events_since_app. auto.
Qed.

Lemma getReceiverCmdRun_list_error_run (kubeClient : KubeClient K) (err : error)
    (k1 : K) :
  kubeClientFor (kubeconfig fl) = inr kubeClient ->
  List kubeClient (listScope fl) (cluster w) = (inl err, k1) ->
  getReceivers =
    (Some err,
     {| cluster := k1;
        trace := (trace w ++ [EvKubeClient (kubeconfig fl);
                              EvList (listScope fl)])%list |}).
Proof.
  intros Hclient Hlist. unfold getReceiverCmdRun, listScope in *.
  run_go. rewrite Hclient; simpl.
  destruct (allNamespaces fl); simpl in *; rewrite Hlist; simpl;
    rewrite <- !app_assoc; reflexivity.
Qed.

(** X20. An error of the List call is returned as it is; the command has
    built the client and called List once, within the namespace of the flags
    or, with [--all-namespaces], without a namespace option, and has printed
    neither a table nor a line. *)
Theorem getReceiverCmdRun_list_error (kubeClient : KubeClient K) (err : error) :
  kubeClientFor (kubeconfig fl) = inr kubeClient ->
  (List kubeClient (if allNamespaces fl then [] else [InNamespace (namespace fl)])
     (cluster w)).1 = inl err ->
  getReceivers.1 = Some err
  /\ events_since w getReceivers.2 =
       [EvKubeClient (kubeconfig fl);
        EvList (if allNamespaces fl then [] else [InNamespace (namespace fl)])].
Proof.
  intros Hclient Hfetch. fold (listScope fl) in *.
  destruct (List kubeClient (listScope fl) (cluster w)) as [r k1] eqn:Hlist.
  cbn [fst] in Hfetch. subst r.
  rewrite (getReceiverCmdRun_list_error_run _ _ _ Hclient Hlist).
  cbn [fst snd]. rewrite events_since_app. auto.
Qed.

(** Every run is one of four. *)
Lemma getReceiverCmdRun_events :
  let events := events_since w getReceivers.2 in
  events = [EvKubeClient (kubeconfig fl)]
  \/ events = [EvKubeClient (kubeconfig fl); EvList (listScope fl)]
  \/ events = [EvKubeClient (kubeconfig fl); EvList (listScope fl);
               EvLog Failuref (nothingFound fl)]
  \/ exists item items,
       events = [EvKubeClient (kubeconfig fl); EvList (listScope fl);
                 EvPrintTable (receiverHeader fl)
                   (List.map receiverRow (item :: items))].
Proof.
  intros events. subst events.
  destruct (kubeClientFor (kubeconfig fl)) as [err | kubeClient] eqn:Hclient.
  - rewrite (getReceiverCmdRun_client_error_run _ Hclient).
    cbn [snd]. rewrite events_since_app. auto.
  - destruct (List kubeClient (listScope fl) (cluster w)) as [[err | items] k1] eqn:Hlist.
    + rewrite (getReceiverCmdRun_list_error_run _ _ _ Hclient Hlist).
      cbn [snd]. rewrite events_since_app. auto.
    + rewrite (getReceiverCmdRun_listed _ _ _ _ _ _ _ Hclient Hlist).
      cbn [snd]. rewrite events_since_app.
      destruct items as [| item items]; [auto |].
      right; right; right. exists item, items.
      rewrite receiverRows_map. reflexivity.
Qed.

(** X21. [getReceiverCmdRun] only reads: no run of it issues a Get, a Create
    or an Update or exports anything; it calls List at most once; and it
    prints a table or one line or nothing, never two of them. *)
Theorem getReceiverCmdRun_read_only :
  let events := events_since w getReceivers.2 in
  List.filter is_get events = []
  /\ List.filter is_write events = []
  /\ (forall obj, ~ In (EvExport obj) events)
  /\ length (List.filter is_list events) <= 1
  /\ length (List.filter is_table events) + length (List.filter is_log events) <= 1.
Proof.
  intros events. subst events.
  destruct getReceiverCmdRun_events as [-> | [-> | [-> | (item & items & ->)]]];
    simpl; repeat split; try lia;
    intros obj Hin; repeat (destruct Hin as [Hin | Hin]; [discriminate |]);
    exact Hin.
Qed.

(** X22. Without [--all-namespaces], a table the command prints is well
    formed: four headings, and four cells in every row. *)
Theorem getReceiverCmdRun_table_shape (header : list string)
    (rows : list (list string)) :
  allNamespaces fl = false ->
  In (EvPrintTable header rows) (events_since w getReceivers.2) ->
  header = ["Name"; "Suspended"; "Ready"; "Message"]
  /\ Forall (fun row => length row = length header) rows.
Proof.
  intros Hall Hin.
  destruct getReceiverCmdRun_events as [H | [H | [H | (item & items & H)]]];
    rewrite H in Hin;
    repeat (destruct Hin as [Hin | Hin]; [try discriminate |]);
    try contradiction.
  injection Hin as <- <-.
  unfold receiverHeader. rewrite Hall. split; [reflexivity |].
  apply List.Forall_forall. intros row Hrow.
  change (In row (List.map receiverRow (item :: items))) in Hrow.
  apply List.in_map_iff in Hrow as (receiver & <- & _).
  apply receiverRow_shape.
Qed.

(** X23. In a table the command prints, the second cell of the row of an
    item is "True" when the item is suspended and "False" when it is not. *)
Theorem getReceiverCmdRun_suspended_cell (kubeClient : KubeClient K)
    (items : list Receiver.t) (header : list string) (rows : list (list string)) :
  kubeClientFor (kubeconfig fl) = inr kubeClient ->
  (List kubeClient (listScope fl) (cluster w)).1 = inr items ->
  In (EvPrintTable header rows) (events_since w getReceivers.2) ->
  forall (i : nat) (receiver : Receiver.t),
    items !! i = Some receiver ->
    exists row,
      rows !! i = Some row
      /\ row !! 1%nat
         = Some (if ReceiverSpec.Suspend (Receiver.Spec receiver)
                 then "True" else "False").
Proof.
  intros Hclient Hitems Hin i receiver Hi.
  destruct (List kubeClient (listScope fl) (cluster w)) as [r k1] eqn:Hlist.
  cbn [fst] in Hitems. subst r.
  rewrite (getReceiverCmdRun_listed _ _ _ _ _ _ _ Hclient Hlist) in Hin.
  cbn [snd] in Hin. rewrite events_since_app in Hin.
  destruct items as [| item items]; [discriminate |].
  repeat (destruct Hin as [Hin | Hin]; [try discriminate |]);
    try contradiction.
  injection Hin as _ <-.
  exists (receiverRow receiver). split.
  - rewrite receiverRows_map.
    change (List.map receiverRow (item :: items))
      with (receiverRow <$> (item :: items)).
    rewrite list_lookup_fmap, Hi. reflexivity.
  - unfold receiverRow. destruct (meta.GetCondition _ _); simpl;
      rewrite Title_FormatBool; reflexivity.
Qed.

End GetReceiversExtras.

(** ** The further properties at work on the in-memory server *)

Lemma parseEventSources_ok_witness :
  parseEventSources Fake.parseObjectKindName
    ["Kustomization/gotk-system"; "GitRepository/podinfo"] []
  = inr [ {| RefKind := "Kustomization"; RefName := "gotk-system"; RefNamespace := "" |};
          {| RefKind := "GitRepository"; RefName := "podinfo"; RefNamespace := "" |} ].
Proof.
  apply (parseEventSources_ok Fake.parseObjectKindName).
  split; [| reflexivity].
  intros es [<- | [<- | []]]; discriminate.
Defined.

Lemma createAlertCmdRun_first_error_witness :
  let noProvider :=
    {| aProviderRef := ""; aEventSeverity := "info";
       aEventSources := ["invalid"]; labels := []; export := false;
       namespace := "gotk-system"; allNamespaces := false;
       kubeconfig := "~/.kube/config"; timeout := 300; pollInterval := 2 |} in
  createAlertFake (flagsWith [] false) [] (Fake.start Fake.empty)
  = (Some (errorString "alert name is required"), Fake.start Fake.empty)
  /\ createAlertFake noProvider ["gotk-system"] (Fake.start Fake.empty)
     = (Some (errorString "provider ref is required"), Fake.start Fake.empty)
  /\ createAlertFake (flagsWith [] false) ["gotk-system"] (Fake.start Fake.empty)
     = (Some (errorString "at least one event source is required"),
        Fake.start Fake.empty).
Proof.
  intros noProvider.
  assert (Hargs : ["gotk-system"] <> []) by discriminate.
  assert (Hprov : aProviderRef (flagsWith [] false) <> "") by discriminate.
  split; [| split].
  - exact (proj1 (createAlertCmdRun_first_error Fake.parseObjectKindName
                    Fake.parseLabels Fake.kubeClientFor Fake.exportResult
                    Fake.pollerTicks (flagsWith [] false) []
                    (Fake.start Fake.empty)) eq_refl).
  - exact (proj1 (proj2 (createAlertCmdRun_first_error Fake.parseObjectKindName
                           Fake.parseLabels Fake.kubeClientFor Fake.exportResult
                           Fake.pollerTicks noProvider ["gotk-system"]
                           (Fake.start Fake.empty))) Hargs eq_refl).
  - exact (proj2 (proj2 (createAlertCmdRun_first_error Fake.parseObjectKindName
                           Fake.parseLabels Fake.kubeClientFor Fake.exportResult
                           Fake.pollerTicks (flagsWith [] false) ["gotk-system"]
                           (Fake.start Fake.empty))) Hargs Hprov eq_refl).
Defined.

Lemma createAlertCmdRun_first_malformed_witness :
  createAlertFake (flagsWith ["Kustomization/gotk-system"; "invalid"; "also"] false)
    ["gotk-system"] (Fake.start Fake.empty)
  = (Some (errorString
             "invalid event source 'invalid', must be in format <kind>/<name>"),
     Fake.start Fake.empty).
Proof.
  assert (Hprov : aProviderRef
                    (flagsWith ["Kustomization/gotk-system"; "invalid"; "also"] false)
                  <> "") by discriminate.
  apply (createAlertCmdRun_first_malformed Fake.parseObjectKindName
           Fake.parseLabels Fake.kubeClientFor Fake.exportResult Fake.pollerTicks
           (flagsWith ["Kustomization/gotk-system"; "invalid"; "also"] false)
           "gotk-system" [] (Fake.start Fake.empty)
           ["Kustomization/gotk-system"] "invalid" ["also"] Hprov eq_refl).
  - intros es [<- | []]. discriminate.
  - reflexivity.
Defined.

Lemma createAlertCmdRun_labels_error_witness :
  createAlertCmdRun Fake.parseObjectKindName
    (fun _ => inl (errorString "invalid label format 'team', must be key=value"))
    Fake.kubeClientFor Fake.exportResult Fake.pollerTicks
    Fake.flags ["gotk-system"] (Fake.start Fake.empty)
  = (Some (errorString "invalid label format 'team', must be key=value"),
     Fake.start Fake.empty).
Proof.
  assert (Hprov : aProviderRef Fake.flags <> "") by discriminate.
  assert (Hne : [{| RefKind := "Kustomization"; RefName := "gotk-system";
                    RefNamespace := "" |}] <> []) by discriminate.
  exact (createAlertCmdRun_labels_error Fake.parseObjectKindName
           (fun _ => inl (errorString "invalid label format 'team', must be key=value"))
           Fake.kubeClientFor Fake.exportResult Fake.pollerTicks
           Fake.flags "gotk-system" [] (Fake.start Fake.empty) _ _
           Hprov eq_refl Hne eq_refl).
Defined.

Lemma Fake_flags_validated :
  validated Fake.parseObjectKindName Fake.parseLabels Fake.flags
    [{| RefKind := "Kustomization"; RefName := "gotk-system"; RefNamespace := "" |}] ∅.
Proof.
  split; [discriminate | split; [reflexivity | split; [discriminate | reflexivity]]].
Defined.

Lemma createAlertCmdRun_client_error_witness :
  createAlertCmdRun Fake.parseObjectKindName Fake.parseLabels
    (fun _ => inl (errorString "kubeconfig not found"))
    Fake.exportResult Fake.pollerTicks Fake.flags ["gotk-system"]
    (Fake.start Fake.empty)
  = (Some (errorString "kubeconfig not found"),
     {| cluster := Fake.empty;
        trace := [generatingLine; EvKubeClient "~/.kube/config"] |}).
Proof.
  exact (createAlertCmdRun_client_error Fake.parseObjectKindName Fake.parseLabels
           (fun _ => inl (errorString "kubeconfig not found"))
           Fake.exportResult Fake.pollerTicks Fake.flags "gotk-system" []
           (Fake.start Fake.empty) _ _ (errorString "kubeconfig not found")
           Fake_flags_validated eq_refl eq_refl).
Defined.

Lemma createAlertCmdRun_upsert_error_witness :
  let w := Fake.start (Fake.failing Fake.forbidden) in
  let run := createAlertFake Fake.flags ["gotk-system"] w in
  run.1 = Some Fake.forbidden
  /\ List.filter is_get (events_since w run.2)
     = [EvGet {| types.Namespace := "gotk-system"; types.Name := "gotk-system" |}].
Proof.
  intros w run.
  destruct (createAlertCmdRun_upsert_error Fake.parseObjectKindName
              Fake.parseLabels Fake.kubeClientFor Fake.exportResult
              Fake.pollerTicks Fake.flags "gotk-system" [] w _ _ Fake.client
              Fake.forbidden Fake_flags_validated eq_refl eq_refl eq_refl)
    as (Hr & _ & Hgets & _).
  split; [exact Hr | exact Hgets].
Defined.

Lemma createAlertCmdRun_ready_line_witness :
  let w := Fake.start (Fake.holding
                         (Fake.stored [Fake.condition "True" "Initialized"])) in
  last (events_since w (createAlertFake Fake.flags ["gotk-system"] w).2)
  = Some (EvLog Successf "alert gotk-system is ready").
Proof.
  intros w.
  apply (createAlertCmdRun_ready_line Fake.parseObjectKindName
           Fake.parseLabels Fake.kubeClientFor Fake.exportResult
           Fake.pollerTicks Fake.flags "gotk-system" [] w _ _ Fake.client
           Fake_flags_validated eq_refl eq_refl).
  reflexivity.
Defined.

Lemma getReceiverCmdRun_client_error_witness :
  let run :=
    getReceiverCmdRun (K := Fake.Cluster)
      (fun _ => inl (errorString "kubeconfig not found"))
      Fake.flags [] (Fake.start Fake.empty) in
  run.1 = Some (errorString "kubeconfig not found")
  /\ cluster run.2 = Fake.empty
  /\ events_since (Fake.start Fake.empty) run.2 = [EvKubeClient "~/.kube/config"].
Proof.
  exact (getReceiverCmdRun_client_error
           (fun _ => inl (errorString "kubeconfig not found"))
           Fake.flags [] (Fake.start Fake.empty)
           (errorString "kubeconfig not found") eq_refl).
Defined.

Lemma getReceiverCmdRun_list_error_witness :
  let w := Fake.start (Fake.failing Fake.forbidden) in
  let run := getReceiverCmdRun Fake.kubeClientFor Fake.flags [] w in
  run.1 = Some Fake.forbidden
  /\ events_since w run.2 =
       [EvKubeClient "~/.kube/config"; EvList [InNamespace "gotk-system"]].
Proof.
  exact (getReceiverCmdRun_list_error Fake.kubeClientFor Fake.flags []
           (Fake.start (Fake.failing Fake.forbidden)) Fake.client Fake.forbidden
           eq_refl eq_refl).
Defined.

Lemma getReceiverCmdRun_table_shape_witness :
  Forall (fun row : list string => length row = 4%nat)
    [["github-hook"; "False"; "True"; "Receiver initialised"];
     ["harbor-hook"; "True"; "False"; "waiting to be reconciled"]].
Proof.
  assert (Hin : In (EvPrintTable ["Name"; "Suspended"; "Ready"; "Message"]
                      [["github-hook"; "False"; "True"; "Receiver initialised"];
                       ["harbor-hook"; "True"; "False"; "waiting to be reconciled"]])
                  (events_since (Fake.start (Fake.withReceivers twoReceivers))
                     (getReceiverCmdRun Fake.kubeClientFor Fake.flags []
                        (Fake.start (Fake.withReceivers twoReceivers))).2)).
  { right; right; left. reflexivity. }
  exact (proj2 (getReceiverCmdRun_table_shape Fake.kubeClientFor Fake.flags []
                  (Fake.start (Fake.withReceivers twoReceivers)) _ _ eq_refl Hin)).
Defined.

Lemma getReceiverCmdRun_suspended_cell_witness :
  exists row,
    [["github-hook"; "False"; "True"; "Receiver initialised"];
     ["harbor-hook"; "True"; "False"; "waiting to be reconciled"]] !! 1%nat
    = Some row
    /\ row !! 1%nat = Some "True".
Proof.
  assert (Hin : In (EvPrintTable ["Name"; "Suspended"; "Ready"; "Message"]
                      [["github-hook"; "False"; "True"; "Receiver initialised"];
                       ["harbor-hook"; "True"; "False"; "waiting to be reconciled"]])
                  (events_since (Fake.start (Fake.withReceivers twoReceivers))
                     (getReceiverCmdRun Fake.kubeClientFor Fake.flags []
                        (Fake.start (Fake.withReceivers twoReceivers))).2)).
  { right; right; left. reflexivity. }
  exact (getReceiverCmdRun_suspended_cell Fake.kubeClientFor Fake.flags []
           (Fake.start (Fake.withReceivers twoReceivers)) Fake.client
           twoReceivers _ _ eq_refl eq_refl Hin 1%nat
           (Fake.receiver "gotk-system" "harbor-hook" true []) eq_refl).
Defined.
